(** * Core-pinned real-time demo: a shallow embedding of [Core_Pinned.c]

    The development follows the layout of the C file: configuration
    constants, the cross-core message, the jitter statistics helpers
    ([stats_init], [stats_update], [stats_report_and_clear]), the
    microsecond period timer ([delay_until_us]) and the four tasks.

    Machine integers are integers of [Z] with the wrap-around written
    out; [double] values are IEEE binary64 primitive floats and [float]
    values binary32 specification floats.  Effectful
    code runs in a small state-and-trace monad over a [world] that holds
    what the C file keeps global or reads from the platform. *)

From Stdlib Require Import ZArith List String Bool Lia Floats.
Import ListNotations.

Local Open Scope string_scope.
Local Open Scope list_scope.
Local Open Scope Z_scope.

(** ** Machine integers *)

Module MachineInt.

Definition INT64_MAX : Z := 2 ^ 63 - 1.
Definition INT64_MIN : Z := - 2 ^ 63.
Definition UINT32_MAX : Z := 2 ^ 32 - 1.

(** Two's-complement reduction to [int64_t]. *)
Definition wrap_int64 (z : Z) : Z := (z + 2 ^ 63) mod 2 ^ 64 - 2 ^ 63.

(** Reduction to [uint32_t]; also the cast [(uint32_t) x]. *)
Definition wrap_uint32 (z : Z) : Z := z mod 2 ^ 32.

(** Two's-complement reduction to [int]; the cast [(int) x]. *)
Definition wrap_int32 (z : Z) : Z := (z + 2 ^ 31) mod 2 ^ 32 - 2 ^ 31.

Definition fits_int64 (z : Z) : Prop := INT64_MIN <= z <= INT64_MAX.

Definition add64 (a b : Z) : Z := wrap_int64 (a + b).
Definition sub64 (a b : Z) : Z := wrap_int64 (a - b).
Definition incr32 (a : Z) : Z := wrap_uint32 (a + 1).

(** [(double) z] for an integer [z]: round to nearest, ties to even. *)
Definition Z2double (z : Z) : float :=
  SF2Prim (binary_normalize prec emax z 0 false).

End MachineInt.
Import MachineInt.

(** Single-precision arithmetic ([float]): IEEE binary32 on the
    specification floats of the standard library, every operation
    rounded to nearest. *)
Module F32.

Definition prec : Z := 24.
Definition emax : Z := 128.

Definition zero : spec_float := S754_zero false.
Definition of_Z (z : Z) : spec_float := binary_normalize prec emax z 0 false.
Definition add : spec_float -> spec_float -> spec_float := SFadd prec emax.
Definition mul : spec_float -> spec_float -> spec_float := SFmul prec emax.
Definition div : spec_float -> spec_float -> spec_float := SFdiv prec emax.
Definition sqrtf : spec_float -> spec_float := SFsqrt prec emax.

(** The literals [0.001f] and [0.01f]: the binary32 values nearest to
    1/1000 and 1/100. *)
Definition lit_0_001 : spec_float := div (of_Z 1) (of_Z 1000).
Definition lit_0_01 : spec_float := div (of_Z 1) (of_Z 100).

End F32.

(** ** Configuration (lines 14-39) *)

Definition TAG : string := "REALTIME".

Definition CORE0 : Z := 0.
Definition CORE1 : Z := 1.

Definition CTRL_HZ : Z := 1000.
Definition DAQ_HZ : Z := 500.

Definition CTRL_PERIOD_US : Z := Z.quot 1000000 CTRL_HZ.
Definition DAQ_PERIOD_US : Z := Z.quot 1000000 DAQ_HZ.

Definition PRIO_CTRL : Z := 24.
Definition PRIO_DAQ : Z := 22.
Definition PRIO_COMM : Z := 18.
Definition PRIO_BG : Z := 5.

Definition STK_CTRL : Z := 4096.
Definition STK_DAQ : Z := 4096.
Definition STK_COMM : Z := 4096.
Definition STK_BG : Z := 4096.

Definition REPORT_MS : Z := 1000.

(** FreeRTOS status codes of [projdefs.h], which the tasks compare
    against. *)
Definition pdFALSE : Z := 0.
Definition pdTRUE : Z := 1.
Definition pdPASS : Z := pdTRUE.
Definition errQUEUE_FULL : Z := 0.

(** What the C file takes from the platform without defining it: the
    tick conversion macro of the FreeRTOS port. *)
Class Platform : Type := {
  pdMS_TO_TICKS : Z -> Z
}.

(** ** Communication structures (lines 41-48) *)

Record ctrl_msg_t : Type := mk_ctrl_msg {
  t_send_us : Z;
  seq : Z;
  ctrl_output : spec_float
}.

(** Modelled from the spec: the FreeRTOS queue behind [QueueHandle_t]
    is not part of the repository; section 4.3 describes it as a
    fixed-capacity FIFO whose send appends at the tail when there is
    room and whose receive removes the head. *)
Record QueueHandle_t : Type := mk_queue {
  q_capacity : nat;
  q_items : list ctrl_msg_t
}.

(** Modelled from the spec: [xQueueCreate] gives an empty queue of the
    requested capacity (the item size is fixed by [ctrl_msg_t]). *)
Definition xQueueCreate (len : nat) : QueueHandle_t :=
  {| q_capacity := len; q_items := [] |}.

Definition queue_full (q : QueueHandle_t) : bool :=
  (q_capacity q <=? List.length (q_items q))%nat.

(** ** Jitter statistics (lines 50-93) *)

Record period_stats_t : Type := mk_period_stats {
  prev_tick_us : Z;
  target_period_us : Z;
  err_abs_sum_us : float;
  err_abs_max_us : float;
  count : Z
}.

(** [memset] followed by the five assignments: nothing of the old
    contents of [*s] survives. *)
Definition stats_init (s : period_stats_t) (period_us : Z) : period_stats_t :=
  {| prev_tick_us := 0;
     target_period_us := period_us;
     err_abs_sum_us := 0%float;
     err_abs_max_us := 0%float;
     count := 0 |}.

Definition stats_update (s : period_stats_t) (now_us : Z) : period_stats_t :=
  if prev_tick_us s =? 0 then
    {| prev_tick_us := now_us;
       target_period_us := target_period_us s;
       err_abs_sum_us := err_abs_sum_us s;
       err_abs_max_us := err_abs_max_us s;
       count := count s |}
  else
    let dt := sub64 now_us (prev_tick_us s) in
    let err := (Z2double dt - Z2double (target_period_us s))%float in
    let aerr := PrimFloat.abs err in
    {| prev_tick_us := now_us;
       target_period_us := target_period_us s;
       err_abs_sum_us := (err_abs_sum_us s + aerr)%float;
       err_abs_max_us :=
         if PrimFloat.ltb (err_abs_max_us s) aerr then aerr
         else err_abs_max_us s;
       count := incr32 (count s) |}.

(** ** Observable events and the world *)

Inductive log_level : Type := LogInfo | LogWarn.

Inductive log_arg : Type :=
| ArgInt (z : Z)
| ArgDouble (f : float)
| ArgStr (s : string).

(** Floating divisions are recorded next to the calls into the platform,
    so that which divisions a call performs can be read off its trace. *)
Inductive event : Type :=
| EvLog (lvl : log_level) (tag fmt : string) (args : list log_arg)
| EvFDiv (num den : float)
| EvDelay (ticks : Z)
| EvYield
| EvQueueSend (msg : ctrl_msg_t) (ticks_to_wait : Z) (result : Z)
| EvQueueReceive (ticks_to_wait : Z) (received : option ctrl_msg_t)
| EvQueueBlocked (ticks : Z)
| EvWdtAdd
| EvWdtReset
| EvWdtDelete
| EvTaskCreate (name : string) (stack prio : Z) (core : option Z).

(** [clock] is the sequence of values [esp_timer_get_time] returns, in
    call order; [q_ctrl_to_comm] is the file-level queue handle; [bg_n]
    is the function-level static counter of [background_task]. *)
Record world : Type := mk_world {
  clock : nat -> Z;
  clock_reads : nat;
  q_ctrl_to_comm : QueueHandle_t;
  bg_n : Z;
  free_heap : Z
}.

Record outcome (A : Type) : Type := mk_outcome {
  value : A;
  final : world;
  emitted : list event
}.
Arguments mk_outcome {A} _ _ _.
Arguments value {A} _.
Arguments final {A} _.
Arguments emitted {A} _.

Definition M (A : Type) : Type := world -> outcome A.

Definition ret {A : Type} (a : A) : M A :=
  fun w => mk_outcome a w [].

Definition bind {A B : Type} (m : M A) (k : A -> M B) : M B :=
  fun w =>
    let r1 := m w in
    let r2 := k (value r1) (final r1) in
    mk_outcome (value r2) (final r2) (emitted r1 ++ emitted r2).

Definition emit (e : event) : M unit :=
  fun w => mk_outcome tt w [e].

Notation "x <- m ;; k" := (bind m (fun x => k))
  (at level 61, m at next level, right associativity).
Notation "m ;;; k" := (bind m (fun _ => k))
  (at level 61, right associativity).

Fixpoint iterate {A : Type} (n : nat) (body : A -> M A) (a : A) : M A :=
  match n with
  | O => ret a
  | S n' => a' <- body a ;; iterate n' body a'
  end.

(** *** Platform calls *)

(** The time the next clock read will return. *)
Definition next_time (w : world) : Z := clock w (clock_reads w).

Definition esp_timer_get_time : M Z :=
  fun w =>
    mk_outcome (next_time w)
      {| clock := clock w; clock_reads := S (clock_reads w);
         q_ctrl_to_comm := q_ctrl_to_comm w; bg_n := bg_n w;
         free_heap := free_heap w |}
      [].

Definition esp_get_free_heap_size : M Z :=
  fun w => mk_outcome (free_heap w) w [].

Definition vTaskDelay (ticks : Z) : M unit := emit (EvDelay ticks).
Definition taskYIELD : M unit := emit EvYield.
Definition esp_task_wdt_add : M unit := emit EvWdtAdd.
Definition esp_task_wdt_reset : M unit := emit EvWdtReset.
Definition esp_task_wdt_delete : M unit := emit EvWdtDelete.

Definition ESP_LOGI (tag fmt : string) (args : list log_arg) : M unit :=
  emit (EvLog LogInfo tag fmt args).
Definition ESP_LOGW (tag fmt : string) (args : list log_arg) : M unit :=
  emit (EvLog LogWarn tag fmt args).

Definition fdiv (a b : float) : M float :=
  emit (EvFDiv a b) ;;; ret (a / b)%float.

Definition set_queue (q : QueueHandle_t) : M unit :=
  fun w =>
    mk_outcome tt
      {| clock := clock w; clock_reads := clock_reads w;
         q_ctrl_to_comm := q; bg_n := bg_n w; free_heap := free_heap w |}
      [].

Definition set_bg_n (n : Z) : M unit :=
  fun w =>
    mk_outcome tt
      {| clock := clock w; clock_reads := clock_reads w;
         q_ctrl_to_comm := q_ctrl_to_comm w; bg_n := n;
         free_heap := free_heap w |}
      [].

(** Modelled from the spec: [xQueueSend] on the shared queue (section
    4.3).  With room the message goes to the tail and the call
    succeeds.  On a full queue a zero timeout fails at once (the drop
    policy); a positive timeout suspends the caller first, and in a
    step where nobody frees a slot meanwhile it then fails as well. *)
Definition xQueueSend (msg : ctrl_msg_t) (ticks_to_wait : Z) : M Z :=
  fun w =>
    let q := q_ctrl_to_comm w in
    if queue_full q then
      mk_outcome errQUEUE_FULL w
        ((if 0 <? ticks_to_wait then [EvQueueBlocked ticks_to_wait] else [])
           ++ [EvQueueSend msg ticks_to_wait errQUEUE_FULL])
    else
      mk_outcome pdPASS
        {| clock := clock w; clock_reads := clock_reads w;
           q_ctrl_to_comm :=
             {| q_capacity := q_capacity q; q_items := q_items q ++ [msg] |};
           bg_n := bg_n w; free_heap := free_heap w |}
        [EvQueueSend msg ticks_to_wait pdPASS].

(** Modelled from the spec: [xQueueReceive] on the shared queue (section
    4.3).  A present item is removed from the head and handed over;
    otherwise the caller is suspended up to the timeout and gets an
    empty result.  [Some m] stands for [pdTRUE] with [m] copied into the
    caller's buffer, [None] for [pdFALSE]. *)
Definition xQueueReceive (ticks_to_wait : Z) : M (option ctrl_msg_t) :=
  fun w =>
    let q := q_ctrl_to_comm w in
    match q_items q with
    | m :: rest =>
        mk_outcome (Some m)
          {| clock := clock w; clock_reads := clock_reads w;
             q_ctrl_to_comm := {| q_capacity := q_capacity q; q_items := rest |};
             bg_n := bg_n w; free_heap := free_heap w |}
          [EvQueueReceive ticks_to_wait (Some m)]
    | [] =>
        mk_outcome None w
          ((if 0 <? ticks_to_wait then [EvQueueBlocked ticks_to_wait] else [])
             ++ [EvQueueReceive ticks_to_wait None])
    end.

(** ** Reporting (lines 84-93) *)

(** The statistics are passed through a pointer to [const]: the call
    reads them and can only act on the trace. *)
Definition stats_report_and_clear (tag_name label : string)
    (s : period_stats_t) : M unit :=
  if count s =? 0 then ret tt
  else
    avg_abs_err <- fdiv (err_abs_sum_us s) (Z2double (count s)) ;;
    q1 <- fdiv avg_abs_err (Z2double (target_period_us s)) ;;
    let jitter_pct := (q1 * 100)%float in
    q2 <- fdiv (err_abs_max_us s) (Z2double (target_period_us s)) ;;
    let max_jitter_pct := (q2 * 100)%float in
    hz <- fdiv 1e6%float (Z2double (target_period_us s)) ;;
    ESP_LOGI tag_name "%s: %.1f Hz (jitter avg: ±%.2f%%, max: ±%.2f%%)"
      [ArgStr label; ArgDouble hz; ArgDouble jitter_pct;
       ArgDouble max_jitter_pct].

(** ** The period timer (lines 97-120) *)

(** The in-out parameter [*next_deadline_us] is passed in and its final
    contents returned. *)
Definition delay_until_us `{Platform} (next_deadline_us period_us : Z) : M Z :=
  now <- esp_timer_get_time ;;
  let next_deadline_us :=
    if next_deadline_us =? 0 then add64 now period_us
    else add64 next_deadline_us period_us in
  let wait_us := sub64 next_deadline_us now in
  if wait_us <=? 0 then ret next_deadline_us
  else
    (if wait_us >=? 1000 then
       let dly := wrap_uint32 (pdMS_TO_TICKS (wrap_uint32 (Z.quot wait_us 1000))) in
       if dly >? 0 then vTaskDelay dly else ret tt
     else ret tt) ;;;
    t <- esp_timer_get_time ;;
    let remain := sub64 next_deadline_us t in
    (if (remain >? 0) && (remain <? 1000) then taskYIELD else ret tt) ;;;
    ret next_deadline_us.

(** [n] calls in a row on one timer variable, collecting what the
    variable holds after each call. *)
Fixpoint delay_until_us_calls `{Platform} (n : nat)
    (next_deadline_us period_us : Z) : M (list Z) :=
  match n with
  | O => ret []
  | S n' =>
      d <- delay_until_us next_deadline_us period_us ;;
      ds <- delay_until_us_calls n' d period_us ;;
      ret (d :: ds)
  end.

(** The values a timer variable can hold: zero when it is declared,
    then what a call leaves in it, for calls made at a non-negative
    clock value whose addition stays within [int64_t]. *)
Definition deadline_fits (d P now : Z) : Prop :=
  (if d =? 0 then now + P else d + P) <= INT64_MAX.

Inductive timer_reachable `{Platform} (P : Z) : Z -> Prop :=
| timer_fresh : timer_reachable P 0
| timer_called (d : Z) (w : world) :
    timer_reachable P d ->
    0 <= next_time w ->
    deadline_fits d P (next_time w) ->
    timer_reachable P (value (delay_until_us d P w)).

(** ** Dummy workloads (lines 122-152) *)

(** The loop of [do_control_compute]: [acc += sqrtf((float)(i + 1)) *
    0.001f] for [i] counting up, [n] more times. *)
Fixpoint control_accumulate (n : nat) (i : Z) (acc : spec_float) : spec_float :=
  match n with
  | O => acc
  | S n' =>
      control_accumulate n' (i + 1)
        (F32.add acc (F32.mul (F32.sqrtf (F32.of_Z (i + 1))) F32.lit_0_001))
  end.

Definition do_control_compute (k : Z) : spec_float :=
  let acc := control_accumulate 200 0 F32.zero in
  F32.add acc (F32.mul (F32.of_Z (Z.land k 7)) F32.lit_0_01).

(** The simulated sensor read: it advances a phase kept in a static of
    its own and writes [1.23f + 0.1f * sinf(t)] and [3.45f + 0.1f *
    cosf(t)] into two locals of its caller, which never reads them.
    Nothing else can observe either, so the call leaves the world and
    the trace alone. *)
Definition do_daq_read : M unit := ret tt.

Definition do_comm_io `{Platform} : M unit := vTaskDelay (pdMS_TO_TICKS 5).

Definition do_background_work `{Platform} : M unit :=
  vTaskDelay (pdMS_TO_TICKS 50).

(** ** Tasks (lines 154-298)

    Each task is its prologue followed by the body of its [while (1)]
    loop; [n] bounds how many iterations are observed.  The
    [esp_task_wdt_delete] calls after the infinite loops are never
    reached. *)

(** The block run at a reporting boundary (lines 192-196 and 227-231):
    report, re-initialise, restart the window. *)
Definition report_if_due (label : string) (period_us : Z)
    (stats : period_stats_t) (last_report now : Z) : M (period_stats_t * Z) :=
  if sub64 now last_report >=? REPORT_MS * 1000 then
    stats_report_and_clear TAG label stats ;;;
    ret (stats_init stats period_us, now)
  else ret (stats, last_report).

Record ctrl_locals : Type := mk_ctrl_locals {
  c_stats : period_stats_t;
  c_next_deadline_us : Z;
  c_last_report_time : Z;
  c_sequence_number : Z
}.

Definition control_task_prologue (core : Z) : M ctrl_locals :=
  ESP_LOGI TAG "Starting Control Task on Core %d" [ArgInt core] ;;;
  let stats := stats_init (mk_period_stats 0 0 0 0 0) CTRL_PERIOD_US in
  last_report_time <- esp_timer_get_time ;;
  esp_task_wdt_add ;;;
  ret {| c_stats := stats; c_next_deadline_us := 0;
         c_last_report_time := last_report_time;
         c_sequence_number := 0 |}.

Definition control_task_body `{Platform} (l : ctrl_locals) : M ctrl_locals :=
  start_time <- esp_timer_get_time ;;
  let control_output := do_control_compute (c_sequence_number l) in
  let message :=
    {| t_send_us := start_time; seq := c_sequence_number l;
       ctrl_output := control_output |} in
  let sequence_number := incr32 (c_sequence_number l) in
  sent <- xQueueSend message 0 ;;
  (if negb (sent =? pdPASS)
   then ESP_LOGW TAG "Control Task: Queue send failed" []
   else ret tt) ;;;
  end_time <- esp_timer_get_time ;;
  let stats := stats_update (c_stats l) end_time in
  r <- report_if_due "Control Loop Stats" CTRL_PERIOD_US stats
         (c_last_report_time l) end_time ;;
  esp_task_wdt_reset ;;;
  next_deadline_us <- delay_until_us (c_next_deadline_us l) CTRL_PERIOD_US ;;
  ret {| c_stats := fst r; c_next_deadline_us := next_deadline_us;
         c_last_report_time := snd r;
         c_sequence_number := sequence_number |}.

Definition control_task_core0 `{Platform} (core : Z) (n : nat) : M ctrl_locals :=
  l <- control_task_prologue core ;; iterate n control_task_body l.

Record daq_locals : Type := mk_daq_locals {
  d_stats : period_stats_t;
  d_next_deadline_us : Z;
  d_last_report : Z
}.

Definition daq_task_prologue (core : Z) : M daq_locals :=
  ESP_LOGI TAG "DAQ task start on Core %d" [ArgInt core] ;;;
  let stats := stats_init (mk_period_stats 0 0 0 0 0) DAQ_PERIOD_US in
  last_report <- esp_timer_get_time ;;
  ret {| d_stats := stats; d_next_deadline_us := 0;
         d_last_report := last_report |}.

Definition daq_task_body `{Platform} (l : daq_locals) : M daq_locals :=
  do_daq_read ;;;
  now <- esp_timer_get_time ;;
  let stats := stats_update (d_stats l) now in
  r <- report_if_due "Data acquisition" DAQ_PERIOD_US stats
         (d_last_report l) now ;;
  next_deadline_us <- delay_until_us (d_next_deadline_us l) DAQ_PERIOD_US ;;
  ret {| d_stats := fst r; d_next_deadline_us := next_deadline_us;
         d_last_report := snd r |}.

Definition daq_task_core0 `{Platform} (core : Z) (n : nat) : M daq_locals :=
  l <- daq_task_prologue core ;; iterate n daq_task_body l.

Record comm_locals : Type := mk_comm_locals {
  received_count : Z;
  m_last_report_time : Z;
  total_latency_ms : float;
  max_latency_ms : float
}.

Definition comm_task_prologue (core : Z) : M comm_locals :=
  ESP_LOGI TAG "Starting Communication Task on Core %d" [ArgInt core] ;;;
  last_report_time <- esp_timer_get_time ;;
  esp_task_wdt_add ;;;
  ret {| received_count := 0; m_last_report_time := last_report_time;
         total_latency_ms := 0%float; max_latency_ms := 0%float |}.

(** The block run when the latency window is over (lines 264-276). *)
Definition comm_report_if_due (l : comm_locals) (now : Z) : M comm_locals :=
  if sub64 now (m_last_report_time l) >=? REPORT_MS * 1000 then
    (if received_count l >? 0 then
       average_latency_ms <-
         fdiv (total_latency_ms l) (Z2double (received_count l)) ;;
       ESP_LOGI TAG "Comm Latency: Avg = %.2f ms, Max = %.2f ms"
         [ArgDouble average_latency_ms; ArgDouble (max_latency_ms l)]
     else ESP_LOGI TAG "Comm Latency: No messages received" []) ;;;
    ret {| received_count := 0; m_last_report_time := now;
           total_latency_ms := 0%float; max_latency_ms := 0%float |}
  else ret l.

Definition comm_task_body `{Platform} (l : comm_locals) : M comm_locals :=
  received <- xQueueReceive (pdMS_TO_TICKS 10) ;;
  l1 <- match received with
        | Some received_message =>
            current_time <- esp_timer_get_time ;;
            latency_ms <-
              fdiv (Z2double (sub64 current_time (t_send_us received_message)))
                1000%float ;;
            ret {| received_count := incr32 (received_count l);
                   m_last_report_time := m_last_report_time l;
                   total_latency_ms := (total_latency_ms l + latency_ms)%float;
                   max_latency_ms :=
                     if PrimFloat.ltb (max_latency_ms l) latency_ms
                     then latency_ms else max_latency_ms l |}
        | None => ret l
        end ;;
  do_comm_io ;;;
  now <- esp_timer_get_time ;;
  l2 <- comm_report_if_due l1 now ;;
  esp_task_wdt_reset ;;;
  ret l2.

Definition comm_task_core1 `{Platform} (core : Z) (n : nat) : M comm_locals :=
  l <- comm_task_prologue core ;; iterate n comm_task_body l.

Definition background_task_prologue (core : Z) : M unit :=
  ESP_LOGI TAG "Background task on Core %d" [ArgInt core].

Definition background_task_body `{Platform} (_ : unit) : M unit :=
  do_background_work ;;;
  n <- (fun w => mk_outcome (incr32 (bg_n w)) w []) ;;
  set_bg_n n ;;;
  if n mod 20 =? 0 then
    heap <- esp_get_free_heap_size ;;
    ESP_LOGI TAG "BG alive. Free heap ~ %d bytes" [ArgInt (wrap_int32 heap)]
  else ret tt.

Definition background_task `{Platform} (core : Z) (n : nat) : M unit :=
  background_task_prologue core ;;; iterate n background_task_body tt.

(** ** Start-up (lines 300-322)

    Both [configASSERT]s are taken to pass: the queue and the four tasks
    exist when [app_main] returns. *)
Definition app_main (core : Z) : M unit :=
  ESP_LOGI TAG "ESP32 Core-Pinned Real-Time Demo; Main on Core %d"
    [ArgInt core] ;;;
  set_queue (xQueueCreate 32) ;;;
  emit (EvTaskCreate "Ctrl_1kHz" STK_CTRL PRIO_CTRL (Some CORE0)) ;;;
  emit (EvTaskCreate "DAQ_500Hz" STK_DAQ PRIO_DAQ (Some CORE0)) ;;;
  emit (EvTaskCreate "Comm" STK_COMM PRIO_COMM (Some CORE1)) ;;;
  emit (EvTaskCreate "BG" STK_BG PRIO_BG None).

(** ** The operations on a tracker

    The three helpers are the only code that touches a [period_stats_t];
    [stats_report_and_clear] reads it through a pointer to [const]. *)
Inductive stats_op : Type :=
| OpInit (period_us : Z)
| OpUpdate (now_us : Z)
| OpReport (tag_name label : string).

Definition stats_apply (op : stats_op) (s : period_stats_t) : period_stats_t :=
  match op with
  | OpInit period_us => stats_init s period_us
  | OpUpdate now_us => stats_update s now_us
  | OpReport _ _ => s
  end.

(** Consecutive ticks on one tracker. *)
Definition stats_updates (s : period_stats_t) (ticks : list Z) : period_stats_t :=
  fold_left stats_update ticks s.

(** ** Reading traces *)

Definition is_wdt_add (e : event) : bool :=
  match e with EvWdtAdd => true | _ => false end.

Definition is_wdt_reset (e : event) : bool :=
  match e with EvWdtReset => true | _ => false end.

Definition is_wdt (e : event) : bool :=
  match e with EvWdtAdd | EvWdtReset | EvWdtDelete => true | _ => false end.

Definition is_queue_op (e : event) : bool :=
  match e with
  | EvQueueSend _ _ _ | EvQueueReceive _ _ | EvQueueBlocked _ => true
  | _ => false
  end.

(** What reporting can emit, and what the period timer can emit. *)
Definition is_report_event (e : event) : bool :=
  match e with EvLog _ _ _ _ | EvFDiv _ _ => true | _ => false end.

Definition is_timer_event (e : event) : bool :=
  match e with EvDelay _ | EvYield => true | _ => false end.

Definition count_events (p : event -> bool) (evs : list event) : nat :=
  List.length (filter p evs).

(** [keeps f m]: running [m] leaves the observation [f] of the world as
    it was. *)
Definition keeps {X A : Type} (f : world -> X) (m : M A) : Prop :=
  forall w, f (final (m w)) = f w.

(** [emits p m]: every event [m] emits satisfies [p]. *)
Definition emits {A : Type} (p : event -> bool) (m : M A) : Prop :=
  forall w, forallb p (emitted (m w)) = true.

(** A predicate on events that only looks at the watchdog calls. *)
Definition wdt_only (p : event -> bool) : Prop :=
  forall e, is_wdt e = false -> p e = false.

(** The messages a trace shows entering and leaving the queue. *)
Definition sent_of (e : event) : list ctrl_msg_t :=
  match e with
  | EvQueueSend msg _ result => if result =? pdPASS then [msg] else []
  | _ => []
  end.

Definition received_of (e : event) : list ctrl_msg_t :=
  match e with
  | EvQueueReceive _ (Some msg) => [msg]
  | _ => []
  end.

Definition sent_messages (evs : list event) : list ctrl_msg_t :=
  flat_map sent_of evs.

Definition received_messages (evs : list event) : list ctrl_msg_t :=
  flat_map received_of evs.

(** ** Interleavings of the producer and the consumer

    The two tasks that share the queue, advanced one loop iteration at a
    time in any order. *)
Inductive turn : Type := TurnControl | TurnComm.

Record system : Type := mk_system {
  sys_ctrl : ctrl_locals;
  sys_comm : comm_locals
}.

Definition system_step `{Platform} (t : turn) (s : system) : M system :=
  match t with
  | TurnControl =>
      l <- control_task_body (sys_ctrl s) ;;
      ret {| sys_ctrl := l; sys_comm := sys_comm s |}
  | TurnComm =>
      l <- comm_task_body (sys_comm s) ;;
      ret {| sys_ctrl := sys_ctrl s; sys_comm := l |}
  end.

Fixpoint run_schedule `{Platform} (ts : list turn) (s : system) : M system :=
  match ts with
  | [] => ret s
  | t :: rest => s' <- system_step t s ;; run_schedule rest s'
  end.

(** Start-up, then both prologues: the system as the loops find it. *)
Definition boot `{Platform} (core : Z) : M system :=
  app_main core ;;;
  c <- control_task_prologue CORE0 ;;
  m <- comm_task_prologue CORE1 ;;
  ret {| sys_ctrl := c; sys_comm := m |}.

(** ** Further readings of a trace *)

Definition is_delay (e : event) : bool :=
  match e with EvDelay _ => true | _ => false end.

Definition is_fdiv (e : event) : bool :=
  match e with EvFDiv _ _ => true | _ => false end.

Definition is_info_log (e : event) : bool :=
  match e with EvLog LogInfo _ _ _ => true | _ => false end.

Definition is_warn_log (e : event) : bool :=
  match e with EvLog LogWarn _ _ _ => true | _ => false end.

(** Reporting proper: information lines and the divisions behind them. *)
Definition is_info_or_fdiv (e : event) : bool :=
  is_info_log e || is_fdiv e.

Definition is_send_attempt (e : event) : bool :=
  match e with EvQueueSend _ _ _ => true | _ => false end.

Definition is_send_passed (e : event) : bool :=
  match e with EvQueueSend _ _ result => result =? pdPASS | _ => false end.

Definition is_send_refused (e : event) : bool :=
  match e with EvQueueSend _ _ result => negb (result =? pdPASS) | _ => false end.

(** The sequence number of every message handed to [xQueueSend],
    accepted or not. *)
Definition attempted_seq_of (e : event) : list Z :=
  match e with EvQueueSend msg _ _ => [seq msg] | _ => [] end.

Definition attempted_seqs (evs : list event) : list Z :=
  flat_map attempted_seq_of evs.

(** The liveness line of [background_task]. *)
Definition is_bg_alive (e : event) : bool :=
  match e with
  | EvLog LogInfo _ fmt _ => String.eqb fmt "BG alive. Free heap ~ %d bytes"
  | _ => false
  end.

(** The arguments of the statistics lines in a trace: label, rate,
    average and maximum jitter. *)
Definition stats_line_of (e : event) : list (list log_arg) :=
  match e with
  | EvLog LogInfo _ _ args => [args]
  | _ => []
  end.

(** Ticks exactly one period apart, [n] of them after [t]. *)
Fixpoint periodic_ticks (t period_us : Z) (n : nat) : list Z :=
  match n with
  | O => []
  | S n' => (t + period_us) :: periodic_ticks (t + period_us) period_us n'
  end.

(** ** The run-time statistics clock of the performance example

    [vPortGetRunTimeStats] of the performance-monitoring program:
    [(uint32_t)(esp_timer_get_time() / 1000)]. *)
Definition vPortGetRunTimeStats : M Z :=
  t <- esp_timer_get_time ;;
  ret (wrap_uint32 (Z.quot t 1000)).

(** ** A concrete platform and world, for running the model *)

(** A 100 Hz tick with the conversion as FreeRTOS writes it. *)
Definition sample_platform : Platform :=
  {| pdMS_TO_TICKS := fun ms => wrap_uint32 (Z.quot (ms * 100) 1000) |}.

(** A clock that advances by [step] microseconds per read from [t0]. *)
Definition sample_world (t0 step : Z) : world :=
  {| clock := fun i => t0 + step * Z.of_nat i;
     clock_reads := 0;
     q_ctrl_to_comm := xQueueCreate 32;
     bg_n := 0;
     free_heap := 200000 |}.

(** The control loop's locals as its prologue leaves them at time 0. *)
Definition sample_ctrl_locals : ctrl_locals :=
  {| c_stats := stats_init (mk_period_stats 0 0 0 0 0) CTRL_PERIOD_US;
     c_next_deadline_us := 0;
     c_last_report_time := 0;
     c_sequence_number := 0 |}.

(** * Verification *)

(** The workload is a closed computation of two hundred square roots;
    the proofs never need its value. *)
Opaque do_control_compute.

(** ** Machine arithmetic *)

Lemma wrap_int64_fits (z : Z) : fits_int64 z -> wrap_int64 z = z.
Proof.
  unfold fits_int64, INT64_MIN, INT64_MAX, wrap_int64. intros Hz.
  rewrite Z.mod_small; lia.
Qed.

Lemma wrap_uint32_small (z : Z) : 0 <= z <= UINT32_MAX -> wrap_uint32 z = z.
Proof.
  unfold UINT32_MAX, wrap_uint32. intros Hz. apply Z.mod_small. lia.
Qed.

Lemma wrap_uint32_range (z : Z) : 0 <= wrap_uint32 z <= UINT32_MAX.
Proof.
  unfold UINT32_MAX, wrap_uint32.
  pose proof (Z.mod_pos_bound z (2 ^ 32) ltac:(lia)). lia.
Qed.

Lemma incr32_no_wrap (n : Z) :
  0 <= n < UINT32_MAX -> incr32 n = n + 1.
Proof.
  intros Hn. unfold incr32. apply wrap_uint32_small.
  unfold UINT32_MAX in *. lia.
Qed.

(** [fabs] never yields a value below zero: it yields a non-negative
    number, positive infinity, or NaN. *)
Lemma abs_not_below_zero (x : float) :
  PrimFloat.ltb (PrimFloat.abs x) 0 = false.
Proof.
  rewrite ltb_spec, abs_spec.
  destruct (Prim2SF x) as [sx|sx| |sx m e]; reflexivity.
Qed.

Lemma add64_exact (a b : Z) : fits_int64 (a + b) -> add64 a b = a + b.
Proof. apply wrap_int64_fits. Qed.

(** ** The period timer *)

Section PeriodTimer.
Context `{Platform}.

(** What the timer variable holds after a call, whatever the wait. *)
Lemma delay_until_us_value (d P : Z) (w : world) :
  value (delay_until_us d P w) =
  if d =? 0 then add64 (next_time w) P else add64 d P.
Proof.
  unfold delay_until_us, bind, esp_timer_get_time. cbn.
  destruct (_ <=? 0); cbn; reflexivity.
Qed.

Lemma delay_until_us_calls_from_set (P : Z) (n : nat) :
  0 < P ->
  forall (d : Z) (w : world),
    0 < d -> d + Z.of_nat n * P <= INT64_MAX ->
    value (delay_until_us_calls n d P w) =
    map (fun k => d + Z.of_nat k * P) (List.seq 1 n).
Proof.
  intros HP. induction n as [|n IH]; intros d w Hd Hmax; [reflexivity|].
  cbn [delay_until_us_calls]. unfold bind at 1. cbn [value ret].
  unfold bind at 1. cbn [value ret].
  rewrite delay_until_us_value.
  replace (d =? 0) with false by (symmetry; apply Z.eqb_neq; lia).
  rewrite add64_exact
    by (unfold fits_int64, INT64_MIN, INT64_MAX in *; lia).
  rewrite IH by lia.
  cbn [List.seq map]. f_equal; [lia|].
  rewrite <- (seq_shift n 1), map_map. apply map_ext. intros k. lia.
Qed.


(** C2. Overrun is absorbed and the sleep is never non-positive.  With
    [wait] the difference between the deadline a call stores and the
    clock value it read: when [wait <= 0] the call emits nothing (no
    sleep, no yield) and reads the clock only once; and every sleep the
    call requests has a strictly positive tick count, is requested only
    for a wait of at least 1000 microseconds, and is the tick
    conversion of the whole milliseconds of that wait. *)
Theorem overrun_absorbed_sleep_positive (d P : Z) (w : world) :
  let r := delay_until_us d P w in
  let wait := sub64 (value r) (next_time w) in
  (wait <= 0 ->
   emitted r = [] /\ clock_reads (final r) = S (clock_reads w)) /\
  (forall ticks,
      In (EvDelay ticks) (emitted r) ->
      0 < ticks /\ 1000 <= wait /\
      ticks = wrap_uint32 (pdMS_TO_TICKS (wrap_uint32 (Z.quot wait 1000)))).
Proof.
  cbv zeta. rewrite delay_until_us_value.
  unfold delay_until_us, bind, esp_timer_get_time. cbn.
  set (d' := if d =? 0 then add64 (next_time w) P else add64 d P).
  destruct (sub64 d' (next_time w) <=? 0) eqn:Hwait; cbn.
  - split; [auto|]. intros ticks [].
  - apply Z.leb_gt in Hwait. split; [lia|].
    intros ticks Hin.
    destruct (sub64 d' (next_time w) >=? 1000) eqn:Hms; cbn in Hin.
    + destruct (_ >? 0) eqn:Hdly; cbn in Hin.
      * destruct Hin as [Heq|Hin].
        -- injection Heq as <-. split; [lia|]. split; [lia|reflexivity].
        -- destruct (_ && _) in Hin; cbn in Hin;
             [destruct Hin as [Hin|[]]; discriminate Hin | destruct Hin].
      * destruct (_ && _) in Hin; cbn in Hin;
          [destruct Hin as [Hin|[]]; discriminate Hin | destruct Hin].
    + destruct (_ && _) in Hin; cbn in Hin;
        [destruct Hin as [Hin|[]]; discriminate Hin | destruct Hin].
Qed.

Lemma timer_reachable_nonneg (P d : Z) :
  0 < P -> timer_reachable P d -> 0 <= d.
Proof.
  intros HP Hr. induction Hr as [|d w Hr IH Hnow Hfit]; [lia|].
  rewrite delay_until_us_value. unfold deadline_fits in Hfit.
  destruct (d =? 0); rewrite add64_exact;
    unfold fits_int64, INT64_MIN, INT64_MAX in *; lia.
Qed.

(** C9. The deadline stays positive.  For a period [P > 0], a timer
    variable in a reachable state, and a call at a clock value
    [now >= 0] whose addition fits [int64_t]: the stored deadline is
    strictly positive afterwards (so it no longer reads as "not set"),
    the new state is reachable again, and the next call, whatever the
    clock reads then, takes the advancing branch and stores exactly the
    deadline plus [P]. *)
Theorem deadline_positive_invariant (P d : Z) (w : world) :
  0 < P ->
  timer_reachable P d ->
  0 <= next_time w ->
  deadline_fits d P (next_time w) ->
  let d' := value (delay_until_us d P w) in
  0 < d' /\
  (d = 0 -> d' = next_time w + P) /\
  (d <> 0 -> d' = d + P) /\
  timer_reachable P d' /\
  (forall w2, value (delay_until_us d' P w2) = add64 d' P).
Proof.
  intros HP Hr Hnow Hfit. cbv zeta.
  pose proof (timer_reachable_nonneg P d HP Hr) as Hd.
  assert (Hpos : 0 < value (delay_until_us d P w)).
  { rewrite delay_until_us_value. unfold deadline_fits in Hfit.
    destruct (d =? 0); rewrite add64_exact;
      unfold fits_int64, INT64_MIN, INT64_MAX in *; lia. }
  split; [exact Hpos|]. split; [|split; [|split]].
  - intros ->. rewrite delay_until_us_value. cbn [Z.eqb].
    unfold deadline_fits in Hfit. cbn [Z.eqb] in Hfit.
    apply add64_exact. unfold fits_int64, INT64_MIN, INT64_MAX in *. lia.
  - intros Hnz. rewrite delay_until_us_value. unfold deadline_fits in Hfit.
    apply Z.eqb_neq in Hnz. rewrite Hnz in *.
    apply add64_exact. unfold fits_int64, INT64_MIN, INT64_MAX in *. lia.
  - now apply timer_called.
  - intros w2. rewrite delay_until_us_value.
    replace (_ =? 0) with false by (symmetry; apply Z.eqb_neq; lia).
    reflexivity.
Qed.

End PeriodTimer.

(** ** The jitter tracker *)

Lemma stats_update_prev_tick (s : period_stats_t) (now_us : Z) :
  prev_tick_us (stats_update s now_us) = now_us.
Proof. unfold stats_update. now destruct (prev_tick_us s =? 0). Qed.

Lemma stats_update_target (s : period_stats_t) (now_us : Z) :
  target_period_us (stats_update s now_us) = target_period_us s.
Proof. unfold stats_update. now destruct (prev_tick_us s =? 0). Qed.

Lemma stats_update_count_seeded (s : period_stats_t) (now_us : Z) :
  prev_tick_us s <> 0 -> count (stats_update s now_us) = incr32 (count s).
Proof.
  intros Hp. unfold stats_update. now apply Z.eqb_neq in Hp as ->.
Qed.

Lemma incr32_wrap_add (c k : Z) :
  incr32 (wrap_uint32 (c + k)) = wrap_uint32 (c + (k + 1)).
Proof.
  unfold incr32, wrap_uint32. rewrite Zplus_mod_idemp_l. f_equal. lia.
Qed.

(** Once a baseline is in place, every tick at a positive time counts. *)
Lemma stats_updates_count_seeded (ticks : list Z) :
  Forall (fun t => 0 < t) ticks ->
  forall (s : period_stats_t) (c k : Z),
    prev_tick_us s <> 0 ->
    count s = wrap_uint32 (c + k) ->
    count (stats_updates s ticks) =
    wrap_uint32 (c + (k + Z.of_nat (List.length ticks))).
Proof.
  unfold stats_updates.
  induction 1 as [|t ticks Ht _ IH]; intros s c k Hs Hc;
    cbn [fold_left List.length].
  - now rewrite Z.add_0_r.
  - rewrite (IH _ c (k + 1)).
    + f_equal. lia.
    + rewrite stats_update_prev_tick. lia.
    + rewrite stats_update_count_seeded, Hc by assumption.
      apply incr32_wrap_add.
Qed.

(** C3. The first tick only seeds.  On a freshly initialised tracker the
    first tick stores its timestamp as the baseline and leaves the count
    and both error accumulators at zero; and after [N >= 1] ticks at
    strictly positive times the 32-bit count is [N - 1] reduced to its
    range, hence exactly [N - 1] whenever that fits the counter. *)
Theorem first_tick_seeds_only (s0 : period_stats_t) (P : Z) (ticks : list Z) :
  ticks <> [] ->
  Forall (fun t => 0 < t) ticks ->
  let fresh := stats_init s0 P in
  let N := Z.of_nat (List.length ticks) in
  (forall t,
      stats_update fresh t =
      {| prev_tick_us := t; target_period_us := P;
         err_abs_sum_us := 0%float; err_abs_max_us := 0%float;
         count := 0 |}) /\
  count (stats_updates fresh ticks) = wrap_uint32 (N - 1) /\
  (N - 1 <= UINT32_MAX -> count (stats_updates fresh ticks) = N - 1).
Proof.
  intros Hne Hpos. cbv zeta.
  assert (Hfirst : forall t,
             stats_update (stats_init s0 P) t =
             {| prev_tick_us := t; target_period_us := P;
                err_abs_sum_us := 0%float; err_abs_max_us := 0%float;
                count := 0 |}) by reflexivity.
  assert (Hcount : count (stats_updates (stats_init s0 P) ticks) =
                   wrap_uint32 (Z.of_nat (List.length ticks) - 1)).
  { destruct ticks as [|t ticks]; [contradiction|].
    inversion Hpos as [|? ? Ht Hrest]; subst.
    change (stats_updates (stats_init s0 P) (t :: ticks))
      with (stats_updates (stats_update (stats_init s0 P) t) ticks).
    rewrite Hfirst.
    rewrite (stats_updates_count_seeded ticks Hrest _ 0 0).
    - f_equal. cbn [List.length]. lia.
    - cbn. lia.
    - reflexivity. }
  split; [exact Hfirst|]. split; [exact Hcount|].
  intros Hfit. rewrite Hcount. apply wrap_uint32_small.
  destruct ticks; [contradiction|]. cbn [List.length] in *. lia.
Qed.

(** C10. Time zero does not seed.  A tick at timestamp 0 on a freshly
    initialised tracker gives back the fresh tracker, so the next tick
    seeds as if it were the first; the stored baseline is always the
    timestamp itself, so it reads as "recorded" exactly when the
    timestamp is non-zero, which for a clock value (never negative)
    means strictly positive. *)
Theorem zero_timestamp_leaves_unseeded (s0 : period_stats_t) (P : Z) :
  let fresh := stats_init s0 P in
  stats_update fresh 0 = fresh /\
  (forall t, stats_update (stats_update fresh 0) t = stats_update fresh t) /\
  (forall now, prev_tick_us (stats_update fresh now) = now) /\
  (forall now,
      0 <= now ->
      (prev_tick_us (stats_update fresh now) <> 0 <-> 0 < now)).
Proof.
  cbv zeta. split; [reflexivity|]. split; [reflexivity|].
  split; [reflexivity|].
  intros now Hnow. cbn. lia.
Qed.

(** ** Running computations: values, final worlds, traces *)

Lemma bind_value {A B : Type} (m : M A) (k : A -> M B) (w : world) :
  value (bind m k w) = value (k (value (m w)) (final (m w))).
Proof. reflexivity. Qed.

Lemma bind_final {A B : Type} (m : M A) (k : A -> M B) (w : world) :
  final (bind m k w) = final (k (value (m w)) (final (m w))).
Proof. reflexivity. Qed.

Lemma bind_emitted {A B : Type} (m : M A) (k : A -> M B) (w : world) :
  emitted (bind m k w) =
  emitted (m w) ++ emitted (k (value (m w)) (final (m w))).
Proof. reflexivity. Qed.

Lemma keeps_ret {X A : Type} (f : world -> X) (a : A) : keeps f (ret a).
Proof. intros w. reflexivity. Qed.

Lemma keeps_emit {X : Type} (f : world -> X) (e : event) : keeps f (emit e).
Proof. intros w. reflexivity. Qed.

Lemma keeps_bind {X A B : Type} (f : world -> X) (m : M A) (k : A -> M B) :
  keeps f m -> (forall a, keeps f (k a)) -> keeps f (bind m k).
Proof.
  intros Hm Hk w. rewrite bind_final, Hk. apply Hm.
Qed.

Lemma emits_ret {A : Type} (p : event -> bool) (a : A) : emits p (ret a).
Proof. intros w. reflexivity. Qed.

Lemma emits_emit (p : event -> bool) (e : event) :
  p e = true -> emits p (emit e).
Proof. intros He w. cbn. now rewrite He. Qed.

Lemma emits_bind {A B : Type} (p : event -> bool) (m : M A) (k : A -> M B) :
  emits p m -> (forall a, emits p (k a)) -> emits p (bind m k).
Proof.
  intros Hm Hk w. rewrite bind_emitted, forallb_app, Hm, Hk. reflexivity.
Qed.

Ltac frame_step :=
  first
    [ apply keeps_ret | apply keeps_emit
    | apply emits_ret | apply emits_emit; reflexivity
    | apply keeps_bind; [|intros ?] | apply emits_bind; [|intros ?]
    | match goal with
      | |- keeps _ (if ?c then _ else _) => destruct c
      | |- emits _ (if ?c then _ else _) => destruct c
      | |- keeps _ (let _ := _ in _) => cbv zeta
      | |- emits _ (let _ := _ in _) => cbv zeta
      end
    | intros ?; reflexivity ].

Ltac frame := repeat frame_step.

(** The workload's value plays no part in the control flow: proofs about
    the control loop treat it as an arbitrary payload. *)
Ltac hide_workload :=
  repeat match goal with
  | |- context [do_control_compute ?k] =>
      let co := fresh "co" in
      let Hco := fresh "Hco" in
      remember (do_control_compute k) as co eqn:Hco; clear Hco
  end.

Ltac run_binds :=
  repeat (rewrite ?bind_value, ?bind_final, ?bind_emitted; cbn beta zeta);
  cbn [value final emitted ret].

Lemma forallb_filter_nil (p q : event -> bool) (evs : list event) :
  forallb p evs = true ->
  (forall e, p e = true -> q e = false) ->
  filter q evs = [].
Proof.
  intros Hp Hpq. induction evs as [|e evs IH]; [reflexivity|].
  cbn in Hp. apply andb_true_iff in Hp as [He Hevs].
  cbn. rewrite (Hpq e He). now apply IH.
Qed.

Lemma forallb_flat_map_nil {X : Type} (p : event -> bool)
    (f : event -> list X) (evs : list event) :
  forallb p evs = true ->
  (forall e, p e = true -> f e = []) ->
  flat_map f evs = [].
Proof.
  intros Hp Hpf. induction evs as [|e evs IH]; [reflexivity|].
  cbn in Hp. apply andb_true_iff in Hp as [He Hevs].
  cbn. rewrite (Hpf e He). now apply IH.
Qed.

Lemma count_events_app (p : event -> bool) (l1 l2 : list event) :
  count_events p (l1 ++ l2) = (count_events p l1 + count_events p l2)%nat.
Proof. unfold count_events. now rewrite filter_app, length_app. Qed.

Lemma count_events_cons (p : event -> bool) (e : event) (l : list event) :
  count_events p (e :: l) =
  ((if p e then 1 else 0) + count_events p l)%nat.
Proof. unfold count_events. cbn. now destruct (p e). Qed.

Lemma count_events_none (p q : event -> bool) (evs : list event) :
  forallb q evs = true ->
  (forall e, q e = true -> p e = false) ->
  count_events p evs = 0%nat.
Proof.
  intros Hq Hqp. unfold count_events.
  now rewrite (forallb_filter_nil q p evs Hq Hqp).
Qed.

Lemma iterate_keeps {X A : Type} (f : world -> X) (body : A -> M A) :
  (forall a, keeps f (body a)) ->
  forall n a, keeps f (iterate n body a).
Proof.
  intros Hbody. induction n as [|n IH]; intros a; cbn [iterate].
  - apply keeps_ret.
  - apply keeps_bind; auto.
Qed.

Lemma iterate_emits {A : Type} (p : event -> bool) (body : A -> M A) :
  (forall a, emits p (body a)) ->
  forall n a, emits p (iterate n body a).
Proof.
  intros Hbody. induction n as [|n IH]; intros a; cbn [iterate].
  - apply emits_ret.
  - apply emits_bind; auto.
Qed.

Lemma iterate_count {A : Type} (p : event -> bool) (body : A -> M A)
    (c : nat) :
  (forall a w, count_events p (emitted (body a w)) = c) ->
  forall n a w, count_events p (emitted (iterate n body a w)) = (n * c)%nat.
Proof.
  intros Hbody. induction n as [|n IH]; intros a w; cbn [iterate].
  - reflexivity.
  - rewrite bind_emitted, count_events_app, Hbody, IH. reflexivity.
Qed.

Lemma report_if_due_value (label : string) (period_us : Z)
    (stats : period_stats_t) (last_report now : Z) (w : world) :
  value (report_if_due label period_us stats last_report now w) =
  if sub64 now last_report >=? REPORT_MS * 1000
  then (stats_init stats period_us, now)
  else (stats, last_report).
Proof.
  unfold report_if_due. now destruct (_ >=? _).
Qed.

(** C4 (as amended).  Reporting on zero samples logs and divides
    nothing, but the caller still re-initialises.  When the count is
    zero [stats_report_and_clear] returns at once: its trace is empty,
    so no summary line is logged and none of the divisions (by the
    count, by the target period) is performed, the world is as before,
    and the tracker, passed as pointer to [const], is only read.  The
    block around it emits nothing either.  When the window is not due
    the block hands the tracker back as it was; when it is due the
    block's [stats_init] runs all the same and the tracker comes out
    freshly initialised: count still zero, both error accumulators
    zero, target set to the period given, and the previous-tick
    baseline cleared. *)
Theorem zero_sample_report_emits_nothing_caller_resets
    (tag_name label : string) (s : period_stats_t) (w : world) :
  count s = 0 ->
  stats_report_and_clear tag_name label s w = mk_outcome tt w [] /\
  (forall P last_report now,
      let r := report_if_due label P s last_report now w in
      emitted r = [] /\
      final r = w /\
      ((sub64 now last_report >=? REPORT_MS * 1000) = false ->
       value r = (s, last_report)) /\
      ((sub64 now last_report >=? REPORT_MS * 1000) = true ->
       value r =
       ({| prev_tick_us := 0; target_period_us := P;
           err_abs_sum_us := 0%float; err_abs_max_us := 0%float;
           count := count s |}, now))).
Proof.
  intros Hc.
  assert (Hnoop : forall tag' label' w',
             stats_report_and_clear tag' label' s w' = mk_outcome tt w' []).
  { intros tag' label' w'. unfold stats_report_and_clear. now rewrite Hc. }
  split; [apply Hnoop|].
  intros P last_report now. cbv zeta. rewrite report_if_due_value.
  unfold report_if_due.
  destruct (_ >=? _).
  - run_binds. rewrite Hnoop. cbn [emitted final app]. rewrite Hc.
    repeat split; try reflexivity. discriminate.
  - repeat split; try reflexivity. discriminate.
Qed.

Section Tasks.
Context `{Platform}.

Lemma stats_report_and_clear_keeps_world (tag_name label : string)
    (s : period_stats_t) :
  keeps (fun w => w) (stats_report_and_clear tag_name label s).
Proof. unfold stats_report_and_clear, fdiv, ESP_LOGI. frame. Qed.

Lemma stats_report_and_clear_emits (tag_name label : string)
    (s : period_stats_t) :
  emits is_report_event (stats_report_and_clear tag_name label s).
Proof. unfold stats_report_and_clear, fdiv, ESP_LOGI. frame. Qed.

Lemma report_if_due_keeps_world (label : string) (period_us : Z)
    (stats : period_stats_t) (last_report now : Z) :
  keeps (fun w => w) (report_if_due label period_us stats last_report now).
Proof.
  unfold report_if_due. frame.
  apply stats_report_and_clear_keeps_world.
Qed.

Lemma report_if_due_emits (label : string) (period_us : Z)
    (stats : period_stats_t) (last_report now : Z) :
  emits is_report_event (report_if_due label period_us stats last_report now).
Proof.
  unfold report_if_due. frame. apply stats_report_and_clear_emits.
Qed.

Lemma delay_until_us_keeps_queue (d P : Z) :
  keeps q_ctrl_to_comm (delay_until_us d P).
Proof.
  unfold delay_until_us, vTaskDelay, taskYIELD. frame.
Qed.

Lemma delay_until_us_emits (d P : Z) :
  emits is_timer_event (delay_until_us d P).
Proof.
  unfold delay_until_us, vTaskDelay, taskYIELD. frame.
Qed.

Lemma xQueueSend_outcome (msg : ctrl_msg_t) (w : world) :
  xQueueSend msg 0 w =
  if queue_full (q_ctrl_to_comm w)
  then mk_outcome errQUEUE_FULL w [EvQueueSend msg 0 errQUEUE_FULL]
  else mk_outcome pdPASS
         {| clock := clock w; clock_reads := clock_reads w;
            q_ctrl_to_comm :=
              {| q_capacity := q_capacity (q_ctrl_to_comm w);
                 q_items := q_items (q_ctrl_to_comm w) ++ [msg] |};
            bg_n := bg_n w; free_heap := free_heap w |}
         [EvQueueSend msg 0 pdPASS].
Proof. unfold xQueueSend. now destruct (queue_full _). Qed.

(** *** One iteration of the control loop *)

Lemma control_task_body_locals (l : ctrl_locals) (w : world) :
  let end_time := clock w (S (clock_reads w)) in
  let due := sub64 end_time (c_last_report_time l) >=? REPORT_MS * 1000 in
  let l' := value (control_task_body l w) in
  c_sequence_number l' = incr32 (c_sequence_number l) /\
  c_stats l' =
  (if due
   then stats_init (stats_update (c_stats l) end_time) CTRL_PERIOD_US
   else stats_update (c_stats l) end_time) /\
  c_last_report_time l' = (if due then end_time else c_last_report_time l).
Proof.
  cbv zeta. split; [reflexivity|].
  unfold control_task_body. hide_workload. run_binds.
  cbn [value ret c_stats c_last_report_time].
  rewrite report_if_due_value, xQueueSend_outcome.
  cbn [final esp_timer_get_time q_ctrl_to_comm].
  destruct (queue_full _); cbn; now destruct (_ >=? _).
Qed.

Lemma control_task_body_queue (l : ctrl_locals) (w : world) :
  let msg :=
    {| t_send_us := next_time w; seq := c_sequence_number l;
       ctrl_output := do_control_compute (c_sequence_number l) |} in
  q_ctrl_to_comm (final (control_task_body l w)) =
  if queue_full (q_ctrl_to_comm w) then q_ctrl_to_comm w
  else {| q_capacity := q_capacity (q_ctrl_to_comm w);
          q_items := q_items (q_ctrl_to_comm w) ++ [msg] |}.
Proof.
  cbv zeta. unfold control_task_body. hide_workload. run_binds.
  rewrite delay_until_us_keeps_queue.
  cbn [final esp_task_wdt_reset emit].
  rewrite (report_if_due_keeps_world _ _ _ _ _ _).
  cbn [final esp_timer_get_time q_ctrl_to_comm].
  rewrite xQueueSend_outcome.
  cbn [final esp_timer_get_time q_ctrl_to_comm].
  destruct (queue_full _); reflexivity.
Qed.

Lemma control_task_body_trace (l : ctrl_locals) (w : world) :
  let msg :=
    {| t_send_us := next_time w; seq := c_sequence_number l;
       ctrl_output := do_control_compute (c_sequence_number l) |} in
  exists evs_report evs_timer,
    forallb is_report_event evs_report = true /\
    forallb is_timer_event evs_timer = true /\
    emitted (control_task_body l w) =
    (if queue_full (q_ctrl_to_comm w)
     then [EvQueueSend msg 0 errQUEUE_FULL;
           EvLog LogWarn TAG "Control Task: Queue send failed" []]
     else [EvQueueSend msg 0 pdPASS])
      ++ evs_report ++ EvWdtReset :: evs_timer.
Proof.
  cbv zeta. unfold control_task_body. hide_workload. run_binds.
  rewrite xQueueSend_outcome.
  cbn [final esp_timer_get_time q_ctrl_to_comm emitted value].
  destruct (queue_full _);
    cbn [emitted negb value final Z.eqb errQUEUE_FULL pdPASS pdTRUE
           ESP_LOGW emit ret app esp_task_wdt_reset];
    rewrite app_nil_r;
    (eexists; eexists; split; [|split; [|reflexivity]];
     [apply report_if_due_emits | apply delay_until_us_emits]).
Qed.

(** *** One iteration of the acquisition loop *)

Lemma daq_task_body_locals (l : daq_locals) (w : world) :
  let now := next_time w in
  let due := sub64 now (d_last_report l) >=? REPORT_MS * 1000 in
  let l' := value (daq_task_body l w) in
  d_stats l' =
  (if due
   then stats_init (stats_update (d_stats l) now) DAQ_PERIOD_US
   else stats_update (d_stats l) now) /\
  d_last_report l' = (if due then now else d_last_report l).
Proof.
  cbv zeta. unfold daq_task_body, do_daq_read. run_binds.
  cbn [d_stats d_last_report]. rewrite report_if_due_value.
  cbn [value esp_timer_get_time]. now destruct (_ >=? _).
Qed.

Lemma daq_task_body_emits (l : daq_locals) :
  emits (fun e => is_report_event e || is_timer_event e) (daq_task_body l).
Proof.
  unfold daq_task_body, do_daq_read, report_if_due, stats_report_and_clear.
  frame.
Qed.

Lemma daq_task_body_keeps_queue (l : daq_locals) :
  keeps q_ctrl_to_comm (daq_task_body l).
Proof.
  unfold daq_task_body, do_daq_read, report_if_due, stats_report_and_clear.
  frame.
Qed.

(** C5. The reset is atomic and keeps the target.  At a reporting
    boundary the block that reports and re-initialises leaves the count,
    both error accumulators and the baseline at zero in one step, with
    the target set to the period it is given; in the control and the
    acquisition loop that period is the one the tracker already has, so
    the target is the same after every iteration as before.  No helper
    clears the count or the error sum on its own.  [stats_init] writes
    all five fields, the four counters to zero.  Reporting writes
    nothing.  [stats_update] keeps the target and moves the baseline to
    the tick; on the seeding tick it keeps count and both accumulators,
    and on any other tick it adds one to the count (modulo 2^32) and
    adds to the sum exactly the tick's absolute error
    |(now - baseline) - target|, a term that is never below zero.  So
    short of a wrap of the 32-bit count, a count that has gone back to
    zero has been through [stats_init], sum, maximum and baseline with
    it; and only [stats_init] writes the target. *)
Theorem reset_is_atomic_and_keeps_target :
  (forall label P stats last_report now w,
      REPORT_MS * 1000 <= sub64 now last_report ->
      value (report_if_due label P stats last_report now w) =
      ({| prev_tick_us := 0; target_period_us := P;
          err_abs_sum_us := 0%float; err_abs_max_us := 0%float;
          count := 0 |}, now)) /\
  (forall l w,
      target_period_us (c_stats l) = CTRL_PERIOD_US ->
      let end_time := clock w (S (clock_reads w)) in
      let l' := value (control_task_body l w) in
      target_period_us (c_stats l') = target_period_us (c_stats l) /\
      (REPORT_MS * 1000 <= sub64 end_time (c_last_report_time l) ->
       c_stats l' = stats_init (c_stats l) (target_period_us (c_stats l)))) /\
  (forall l w,
      target_period_us (d_stats l) = DAQ_PERIOD_US ->
      let l' := value (daq_task_body l w) in
      target_period_us (d_stats l') = target_period_us (d_stats l) /\
      (REPORT_MS * 1000 <= sub64 (next_time w) (d_last_report l) ->
       d_stats l' = stats_init (d_stats l) (target_period_us (d_stats l)))) /\
  (forall op s,
      let s' := stats_apply op s in
      match op with
      | OpInit period_us =>
          s' = {| prev_tick_us := 0; target_period_us := period_us;
                  err_abs_sum_us := 0%float; err_abs_max_us := 0%float;
                  count := 0 |}
      | OpReport _ _ => s' = s
      | OpUpdate now_us =>
          target_period_us s' = target_period_us s /\
          prev_tick_us s' = now_us /\
          if prev_tick_us s =? 0
          then count s' = count s /\
               err_abs_sum_us s' = err_abs_sum_us s /\
               err_abs_max_us s' = err_abs_max_us s
          else
            let aerr :=
              PrimFloat.abs
                (Z2double (sub64 now_us (prev_tick_us s)) -
                 Z2double (target_period_us s))%float in
            count s' = incr32 (count s) /\
            err_abs_sum_us s' = (err_abs_sum_us s + aerr)%float /\
            PrimFloat.ltb aerr 0 = false /\
            err_abs_max_us s' =
            (if PrimFloat.ltb (err_abs_max_us s) aerr then aerr
             else err_abs_max_us s) /\
            (0 <= count s < UINT32_MAX -> count s' = count s + 1)
      end) /\
  (forall op s,
      0 <= count s < UINT32_MAX ->
      count s <> 0 ->
      count (stats_apply op s) = 0 ->
      exists period_us,
        op = OpInit period_us /\
        stats_apply op s =
        {| prev_tick_us := 0; target_period_us := period_us;
           err_abs_sum_us := 0%float; err_abs_max_us := 0%float;
           count := 0 |}).
Proof.
  split; [|split; [|split; [|split]]].
  - intros label P stats last_report now w Hdue.
    rewrite report_if_due_value.
    now apply Z.geb_le in Hdue as ->.
  - intros l w Htarget. cbv zeta.
    pose proof (control_task_body_locals l w) as Hl. cbv zeta in Hl.
    destruct Hl as (_ & Hstats & _). rewrite Hstats.
    destruct (_ >=? _) eqn:Hdue.
    + split; [now rewrite Htarget|]. intros _. now rewrite Htarget.
    + split; [apply stats_update_target|].
      intros Hge. apply Z.geb_le in Hge. congruence.
  - intros l w Htarget. cbv zeta.
    pose proof (daq_task_body_locals l w) as Hl. cbv zeta in Hl.
    destruct Hl as (Hstats & _). rewrite Hstats.
    destruct (_ >=? _) eqn:Hdue.
    + split; [now rewrite Htarget|]. intros _. now rewrite Htarget.
    + split; [apply stats_update_target|].
      intros Hge. apply Z.geb_le in Hge. congruence.
  - intros [period_us|now_us|tag_name label] s; cbv zeta;
      cbn [stats_apply]; [reflexivity| |reflexivity].
    split; [apply stats_update_target|].
    unfold stats_update.
    destruct (prev_tick_us s =? 0);
      cbn [prev_tick_us count err_abs_sum_us err_abs_max_us].
    + repeat split.
    + repeat split; [apply abs_not_below_zero|apply incr32_no_wrap].
  - intros [period_us|now_us|tag_name label] s Hrange Hnz;
      cbn [stats_apply].
    + intros _. now exists period_us.
    + unfold stats_update.
      destruct (prev_tick_us s =? 0); cbn [count]; [congruence|].
      rewrite (incr32_no_wrap _ Hrange). lia.
    + congruence.
Qed.

(** *** One iteration of the communication loop *)

Lemma comm_report_if_due_keeps_world (l : comm_locals) (now : Z) :
  keeps (fun w => w) (comm_report_if_due l now).
Proof. unfold comm_report_if_due, fdiv, ESP_LOGI. frame. Qed.

Lemma comm_report_if_due_emits (l : comm_locals) (now : Z) :
  emits is_report_event (comm_report_if_due l now).
Proof. unfold comm_report_if_due, fdiv, ESP_LOGI. frame. Qed.

Lemma comm_task_body_queue (l : comm_locals) (w : world) :
  q_ctrl_to_comm (final (comm_task_body l w)) =
  match q_items (q_ctrl_to_comm w) with
  | [] => q_ctrl_to_comm w
  | _ :: rest =>
      {| q_capacity := q_capacity (q_ctrl_to_comm w); q_items := rest |}
  end.
Proof.
  unfold comm_task_body, do_comm_io. run_binds.
  rewrite (comm_report_if_due_keeps_world _ _ _).
  unfold xQueueReceive.
  destruct (q_items (q_ctrl_to_comm w)); reflexivity.
Qed.

Lemma comm_task_body_trace (l : comm_locals) (w : world) :
  let t := pdMS_TO_TICKS 10 in
  exists evs_report,
    forallb is_report_event evs_report = true /\
    emitted (comm_task_body l w) =
    (match q_items (q_ctrl_to_comm w) with
     | [] => (if 0 <? t then [EvQueueBlocked t] else [])
               ++ [EvQueueReceive t None]
     | m :: _ =>
         [EvQueueReceive t (Some m);
          EvFDiv (Z2double (sub64 (next_time w) (t_send_us m))) 1000%float]
     end) ++ EvDelay (pdMS_TO_TICKS 5) :: evs_report ++ [EvWdtReset].
Proof.
  cbv zeta. unfold comm_task_body, do_comm_io. run_binds.
  unfold xQueueReceive.
  destruct (q_items (q_ctrl_to_comm w)) as [|m rest];
    cbn [value final emitted ret app vTaskDelay emit esp_timer_get_time
           esp_task_wdt_reset fdiv bind];
    rewrite ?app_nil_r;
    (eexists; split; [apply comm_report_if_due_emits|]);
    rewrite <- ?app_assoc; reflexivity.
Qed.

(** *** What the loop bodies show of the watchdog and the queue *)

Lemma wdt_only_report (p : event -> bool) (e : event) :
  wdt_only p -> is_report_event e = true -> p e = false.
Proof. intros Hp He. apply Hp. now destruct e. Qed.

Lemma wdt_only_timer (p : event -> bool) (e : event) :
  wdt_only p -> is_timer_event e = true -> p e = false.
Proof. intros Hp He. apply Hp. now destruct e. Qed.

Lemma control_task_body_wdt (p : event -> bool) (l : ctrl_locals) (w : world) :
  wdt_only p ->
  count_events p (emitted (control_task_body l w)) =
  if p EvWdtReset then 1%nat else 0%nat.
Proof.
  intros Hp.
  pose proof (control_task_body_trace l w) as Ht. cbv zeta in Ht.
  destruct Ht as (er & et & Her & Het & ->).
  rewrite !count_events_app, !count_events_cons.
  rewrite (count_events_none p _ er Her (fun e => wdt_only_report p e Hp)).
  rewrite (count_events_none p _ et Het (fun e => wdt_only_timer p e Hp)).
  destruct (queue_full _); rewrite !count_events_cons;
    rewrite ?(Hp (EvQueueSend _ _ _)), ?(Hp (EvLog _ _ _ _)) by reflexivity;
    destruct (p EvWdtReset); reflexivity.
Qed.

Lemma comm_task_body_wdt (p : event -> bool) (l : comm_locals) (w : world) :
  wdt_only p ->
  count_events p (emitted (comm_task_body l w)) =
  if p EvWdtReset then 1%nat else 0%nat.
Proof.
  intros Hp.
  pose proof (comm_task_body_trace l w) as Ht. cbv zeta in Ht.
  destruct Ht as (er & Her & ->).
  rewrite !count_events_app, !count_events_cons, !count_events_app.
  rewrite (count_events_none p _ er Her (fun e => wdt_only_report p e Hp)).
  destruct (q_items _); [destruct (0 <? _)|];
    cbn [app]; rewrite ?count_events_cons;
    rewrite ?(Hp (EvQueueReceive _ _)), ?(Hp (EvQueueBlocked _)),
      ?(Hp (EvFDiv _ _)), ?(Hp (EvDelay _)) by reflexivity;
    destruct (p EvWdtReset); reflexivity.
Qed.

Lemma background_task_body_emits (u : unit) :
  emits (fun e => is_report_event e || is_timer_event e)
    (background_task_body u).
Proof.
  unfold background_task_body, do_background_work, vTaskDelay, set_bg_n,
    esp_get_free_heap_size, ESP_LOGI.
  frame.
Qed.

Lemma report_or_timer_not_wdt (e : event) :
  is_report_event e || is_timer_event e = true -> is_wdt e = false.
Proof. now destruct e. Qed.

Lemma report_or_timer_not_queue (e : event) :
  is_report_event e || is_timer_event e = true -> is_queue_op e = false.
Proof. now destruct e. Qed.

Lemma wdt_only_is_wdt : wdt_only is_wdt.
Proof. intros e He. exact He. Qed.

Lemma wdt_only_is_wdt_add : wdt_only is_wdt_add.
Proof. intros e He. now destruct e. Qed.

Lemma wdt_only_is_wdt_reset : wdt_only is_wdt_reset.
Proof. intros e He. now destruct e. Qed.

(** C8. Only the control and the communication loop are under the
    watchdog.  Whatever the number of iterations observed: the
    acquisition task emits no watchdog call and no queue operation and
    leaves the queue as it found it, and the background task emits no
    watchdog call; the control task and the communication task each
    register exactly once, in the prologue before the loop, and each
    iteration of their loops resets the watchdog exactly once and makes
    no other watchdog call. *)
Theorem watchdog_covers_control_and_comm_only (core : Z) (n : nat) (w : world) :
  (count_events is_wdt (emitted (daq_task_core0 core n w)) = 0%nat /\
   count_events is_queue_op (emitted (daq_task_core0 core n w)) = 0%nat /\
   q_ctrl_to_comm (final (daq_task_core0 core n w)) = q_ctrl_to_comm w) /\
  count_events is_wdt (emitted (background_task core n w)) = 0%nat /\
  (count_events is_wdt_add (emitted (control_task_prologue core w)) = 1%nat /\
   count_events is_wdt (emitted (control_task_prologue core w)) = 1%nat /\
   (forall l w',
       count_events is_wdt_reset (emitted (control_task_body l w')) = 1%nat /\
       count_events is_wdt (emitted (control_task_body l w')) = 1%nat) /\
   count_events is_wdt_add (emitted (control_task_core0 core n w)) = 1%nat /\
   count_events is_wdt_reset (emitted (control_task_core0 core n w)) = n) /\
  (count_events is_wdt_add (emitted (comm_task_prologue core w)) = 1%nat /\
   count_events is_wdt (emitted (comm_task_prologue core w)) = 1%nat /\
   (forall l w',
       count_events is_wdt_reset (emitted (comm_task_body l w')) = 1%nat /\
       count_events is_wdt (emitted (comm_task_body l w')) = 1%nat) /\
   count_events is_wdt_add (emitted (comm_task_core1 core n w)) = 1%nat /\
   count_events is_wdt_reset (emitted (comm_task_core1 core n w)) = n).
Proof.
  assert (Hdaq : emits (fun e => is_report_event e || is_timer_event e)
                   (daq_task_core0 core n)).
  { unfold daq_task_core0. apply emits_bind.
    - unfold daq_task_prologue, ESP_LOGI. frame.
    - intros l. apply iterate_emits, daq_task_body_emits. }
  assert (Hbg : emits (fun e => is_report_event e || is_timer_event e)
                  (background_task core n)).
  { unfold background_task. apply emits_bind.
    - unfold background_task_prologue, ESP_LOGI. frame.
    - intros l. apply iterate_emits, background_task_body_emits. }
  split; [|split; [|split]].
  - split; [|split].
    + exact (count_events_none _ _ _ (Hdaq w) report_or_timer_not_wdt).
    + exact (count_events_none _ _ _ (Hdaq w) report_or_timer_not_queue).
    + unfold daq_task_core0. apply keeps_bind.
      * unfold daq_task_prologue, ESP_LOGI. frame.
      * intros l. apply iterate_keeps, daq_task_body_keeps_queue.
  - exact (count_events_none _ _ _ (Hbg w) report_or_timer_not_wdt).
  - split; [reflexivity|]. split; [reflexivity|]. split; [|split].
    + intros l w'. split.
      * apply (control_task_body_wdt _ l w' wdt_only_is_wdt_reset).
      * apply (control_task_body_wdt _ l w' wdt_only_is_wdt).
    + unfold control_task_core0.
      rewrite bind_emitted, count_events_app.
      rewrite (iterate_count is_wdt_add control_task_body 0).
      * cbn. lia.
      * intros l w'.
        apply (control_task_body_wdt _ l w' wdt_only_is_wdt_add).
    + unfold control_task_core0.
      rewrite bind_emitted, count_events_app.
      rewrite (iterate_count is_wdt_reset control_task_body 1).
      * cbn. lia.
      * intros l w'.
        apply (control_task_body_wdt _ l w' wdt_only_is_wdt_reset).
  - split; [reflexivity|]. split; [reflexivity|]. split; [|split].
    + intros l w'. split.
      * apply (comm_task_body_wdt _ l w' wdt_only_is_wdt_reset).
      * apply (comm_task_body_wdt _ l w' wdt_only_is_wdt).
    + unfold comm_task_core1.
      rewrite bind_emitted, count_events_app.
      rewrite (iterate_count is_wdt_add comm_task_body 0).
      * cbn. lia.
      * intros l w'.
        apply (comm_task_body_wdt _ l w' wdt_only_is_wdt_add).
    + unfold comm_task_core1.
      rewrite bind_emitted, count_events_app.
      rewrite (iterate_count is_wdt_reset comm_task_body 1).
      * cbn. lia.
      * intros l w'.
        apply (comm_task_body_wdt _ l w' wdt_only_is_wdt_reset).
Qed.

(** *** Messages entering and leaving the queue *)

Lemma sent_messages_app (l1 l2 : list event) :
  sent_messages (l1 ++ l2) = sent_messages l1 ++ sent_messages l2.
Proof. apply flat_map_app. Qed.

Lemma received_messages_app (l1 l2 : list event) :
  received_messages (l1 ++ l2) = received_messages l1 ++ received_messages l2.
Proof. apply flat_map_app. Qed.

Lemma report_no_message (evs : list event) :
  forallb is_report_event evs = true ->
  sent_messages evs = [] /\ received_messages evs = [].
Proof.
  intros Hr. split;
    apply (forallb_flat_map_nil is_report_event _ evs Hr); now intros [].
Qed.

Lemma timer_no_message (evs : list event) :
  forallb is_timer_event evs = true ->
  sent_messages evs = [] /\ received_messages evs = [].
Proof.
  intros Hr. split;
    apply (forallb_flat_map_nil is_timer_event _ evs Hr); now intros [].
Qed.

Lemma control_task_body_messages (l : ctrl_locals) (w : world) :
  let msg :=
    {| t_send_us := next_time w; seq := c_sequence_number l;
       ctrl_output := do_control_compute (c_sequence_number l) |} in
  received_messages (emitted (control_task_body l w)) = [] /\
  sent_messages (emitted (control_task_body l w)) =
  if queue_full (q_ctrl_to_comm w) then [] else [msg].
Proof.
  cbv zeta.
  pose proof (control_task_body_trace l w) as Ht. cbv zeta in Ht.
  destruct Ht as (er & et & Her & Het & ->).
  destruct (report_no_message er Her) as [Hs1 Hr1].
  destruct (timer_no_message et Het) as [Hs2 Hr2].
  rewrite !received_messages_app, !sent_messages_app.
  change (EvWdtReset :: et) with ([EvWdtReset] ++ et).
  rewrite received_messages_app, sent_messages_app, Hs1, Hr1, Hs2, Hr2.
  destruct (queue_full _); split; reflexivity.
Qed.

Lemma comm_task_body_messages (l : comm_locals) (w : world) :
  sent_messages (emitted (comm_task_body l w)) = [] /\
  received_messages (emitted (comm_task_body l w)) =
  match q_items (q_ctrl_to_comm w) with [] => [] | m :: _ => [m] end.
Proof.
  pose proof (comm_task_body_trace l w) as Ht. cbv zeta in Ht.
  destruct Ht as (er & Her & ->).
  destruct (report_no_message er Her) as [Hs1 Hr1].
  change (EvDelay (pdMS_TO_TICKS 5) :: er ++ [EvWdtReset])
    with ([EvDelay (pdMS_TO_TICKS 5)] ++ er ++ [EvWdtReset]).
  rewrite !received_messages_app, !sent_messages_app, Hs1, Hr1.
  destruct (q_items _); [destruct (0 <? _)|]; split; reflexivity.
Qed.

(** The queue's contents only ever change by what the trace shows. *)
Lemma system_step_fifo (t : turn) (s : system) (w : world) :
  let r := system_step t s w in
  q_items (q_ctrl_to_comm w) ++ sent_messages (emitted r) =
  received_messages (emitted r) ++ q_items (q_ctrl_to_comm (final r)).
Proof.
  cbv zeta. destruct t; unfold system_step; run_binds; rewrite app_nil_r.
  - destruct (control_task_body_messages (sys_ctrl s) w) as [-> ->].
    rewrite control_task_body_queue.
    destruct (queue_full _); cbn; rewrite ?app_nil_r; reflexivity.
  - destruct (comm_task_body_messages (sys_comm s) w) as [-> ->].
    rewrite comm_task_body_queue.
    destruct (q_items (q_ctrl_to_comm w)) eqn:Hq; cbn;
      rewrite ?app_nil_r, ?Hq; reflexivity.
Qed.

Lemma run_schedule_fifo (ts : list turn) :
  forall (s : system) (w : world),
    let r := run_schedule ts s w in
    q_items (q_ctrl_to_comm w) ++ sent_messages (emitted r) =
    received_messages (emitted r) ++ q_items (q_ctrl_to_comm (final r)).
Proof.
  induction ts as [|t ts IH]; intros s w; cbv zeta; cbn [run_schedule].
  - cbn. now rewrite app_nil_r.
  - run_binds. rewrite sent_messages_app, received_messages_app.
    rewrite app_assoc, (system_step_fifo t s w), <- !app_assoc.
    f_equal. apply IH.
Qed.

(** *** Filling and draining the queue *)

Lemma queue_full_iff (q : QueueHandle_t) :
  queue_full q = true <-> (q_capacity q <= List.length (q_items q))%nat.
Proof. unfold queue_full. apply Nat.leb_le. Qed.

Lemma queue_room_iff (q : QueueHandle_t) :
  queue_full q = false <-> (List.length (q_items q) < q_capacity q)%nat.
Proof. unfold queue_full. apply Nat.leb_gt. Qed.

Lemma control_iterations_queue (n : nat) :
  forall (l : ctrl_locals) (w : world),
    (List.length (q_items (q_ctrl_to_comm w))
     <= q_capacity (q_ctrl_to_comm w))%nat ->
    let q' := q_ctrl_to_comm (final (iterate n control_task_body l w)) in
    q_capacity q' = q_capacity (q_ctrl_to_comm w) /\
    List.length (q_items q') =
    Nat.min (List.length (q_items (q_ctrl_to_comm w)) + n)
      (q_capacity (q_ctrl_to_comm w)).
Proof.
  induction n as [|n IH]; intros l w Hlen; cbv zeta; cbn [iterate].
  - cbn. split; [reflexivity|]. lia.
  - rewrite bind_final.
    pose proof (control_task_body_queue l w) as Hq. cbv zeta in Hq.
    set (w1 := final (control_task_body l w)) in *.
    destruct (queue_full (q_ctrl_to_comm w)) eqn:Hfull.
    + apply queue_full_iff in Hfull.
      assert (Hpre : (List.length (q_items (q_ctrl_to_comm w1))
                      <= q_capacity (q_ctrl_to_comm w1))%nat)
        by (rewrite Hq; lia).
      destruct (IH (value (control_task_body l w)) w1 Hpre) as [Hcap Hl].
      rewrite Hq in Hcap, Hl. split; [exact Hcap|]. rewrite Hl. lia.
    + apply queue_room_iff in Hfull.
      assert (Hpre : (List.length (q_items (q_ctrl_to_comm w1))
                      <= q_capacity (q_ctrl_to_comm w1))%nat).
      { rewrite Hq. cbn [q_capacity q_items]. rewrite length_app.
        cbn [List.length]. lia. }
      destruct (IH (value (control_task_body l w)) w1 Hpre) as [Hcap Hl].
      rewrite Hq in Hcap, Hl. cbn [q_capacity q_items] in Hcap, Hl.
      rewrite length_app in Hl. cbn [List.length] in Hl.
      split; [exact Hcap|]. rewrite Hl. lia.
Qed.

Lemma system_step_control (s : system) (w : world) :
  let r := system_step TurnControl s w in
  let b := control_task_body (sys_ctrl s) w in
  value r = {| sys_ctrl := value b; sys_comm := sys_comm s |} /\
  final r = final b /\ emitted r = emitted b.
Proof.
  cbv zeta. unfold system_step. run_binds. now rewrite app_nil_r.
Qed.

Lemma system_step_comm (s : system) (w : world) :
  let r := system_step TurnComm s w in
  let b := comm_task_body (sys_comm s) w in
  value r = {| sys_ctrl := sys_ctrl s; sys_comm := value b |} /\
  final r = final b /\ emitted r = emitted b.
Proof.
  cbv zeta. unfold system_step. run_binds. now rewrite app_nil_r.
Qed.

Lemma wrap_uint32_incr32 (c i : Z) :
  wrap_uint32 (incr32 c + i) = wrap_uint32 (c + (i + 1)).
Proof.
  unfold incr32, wrap_uint32. rewrite Zplus_mod_idemp_l. f_equal. lia.
Qed.

(** With room for all of them, [k] turns of the control loop append [k]
    messages, stamped with consecutive sequence numbers. *)
Lemma control_turns_fill (k : nat) :
  forall (s : system) (w : world),
    (List.length (q_items (q_ctrl_to_comm w)) + k
     <= q_capacity (q_ctrl_to_comm w))%nat ->
    0 <= c_sequence_number (sys_ctrl s) <= UINT32_MAX ->
    let r := run_schedule (repeat TurnControl k) s w in
    q_capacity (q_ctrl_to_comm (final r)) = q_capacity (q_ctrl_to_comm w) /\
    q_items (q_ctrl_to_comm (final r)) =
    q_items (q_ctrl_to_comm w) ++ sent_messages (emitted r) /\
    map seq (sent_messages (emitted r)) =
    map (fun i => wrap_uint32 (c_sequence_number (sys_ctrl s) + Z.of_nat i))
      (List.seq 0 k).
Proof.
  induction k as [|k IH]; intros s w Hroom Hc; cbv zeta;
    cbn [repeat run_schedule].
  - cbn. now rewrite app_nil_r.
  - run_binds.
    pose proof (system_step_control s w) as Hstep. cbv zeta in Hstep.
    destruct Hstep as (Hv & Hf & He). rewrite Hv, Hf, He.
    pose proof (control_task_body_queue (sys_ctrl s) w) as Hq.
    pose proof (control_task_body_messages (sys_ctrl s) w) as Hm.
    cbv zeta in Hq, Hm. destruct Hm as [_ Hsent].
    assert (Hfull : queue_full (q_ctrl_to_comm w) = false)
      by (apply queue_room_iff; lia).
    rewrite Hfull in Hq, Hsent.
    set (b := control_task_body (sys_ctrl s) w) in *.
    set (s1 := {| sys_ctrl := value b; sys_comm := sys_comm s |}).
    destruct (IH s1 (final b)) as (Hcap & Hitems & Hseq).
    + rewrite Hq. cbn [q_capacity q_items]. rewrite length_app.
      cbn [List.length]. lia.
    + cbn [s1 sys_ctrl]. unfold b.
      destruct (control_task_body_locals (sys_ctrl s) w) as (-> & _).
      apply wrap_uint32_range.
    + rewrite Hcap, Hitems, Hq. cbn [q_capacity q_items].
      rewrite sent_messages_app, Hsent, map_app, Hseq, <- app_assoc.
      split; [reflexivity|]. split; [reflexivity|].
      cbn [map seq List.seq app]. f_equal.
      * rewrite Z.add_0_r. symmetry. now apply wrap_uint32_small.
      * rewrite <- (seq_shift k 0), map_map. apply map_ext. intros i.
        cbn [s1 sys_ctrl]. unfold b.
        destruct (control_task_body_locals (sys_ctrl s) w) as (-> & _).
        rewrite wrap_uint32_incr32. f_equal. lia.
Qed.

(** As many turns of the communication loop as there are messages hand
    all of them over, oldest first, and leave the queue empty. *)
Lemma comm_turns_drain (items : list ctrl_msg_t) :
  forall (s : system) (w : world),
    q_items (q_ctrl_to_comm w) = items ->
    let r := run_schedule (repeat TurnComm (List.length items)) s w in
    received_messages (emitted r) = items /\
    q_items (q_ctrl_to_comm (final r)) = [].
Proof.
  induction items as [|m items IH]; intros s w Hq; cbv zeta;
    cbn [List.length repeat run_schedule].
  - cbn. now split.
  - run_binds.
    pose proof (system_step_comm s w) as Hstep. cbv zeta in Hstep.
    destruct Hstep as (Hv & Hf & He). rewrite Hv, Hf, He.
    destruct (comm_task_body_messages (sys_comm s) w) as [_ Hrecv].
    pose proof (comm_task_body_queue (sys_comm s) w) as Hq'.
    rewrite Hq in Hrecv, Hq'.
    set (b := comm_task_body (sys_comm s) w) in *.
    destruct (IH {| sys_ctrl := sys_ctrl s; sys_comm := value b |} (final b))
      as (Hr & Hempty).
    + now rewrite Hq'.
    + rewrite received_messages_app, Hrecv, Hr. now split.
Qed.

Lemma started_queue (core : Z) (n : nat) (w : world) :
  let q := q_ctrl_to_comm
             (final ((app_main core ;;; control_task_core0 CORE0 n) w)) in
  q_capacity q = 32%nat /\ List.length (q_items q) = Nat.min n 32.
Proof.
  cbv zeta. unfold control_task_core0. rewrite !bind_final. cbn beta.
  set (wa := final (app_main core w)).
  set (l0 := value (control_task_prologue CORE0 wa)).
  set (w0 := final (control_task_prologue CORE0 wa)).
  assert (Hq0 : q_ctrl_to_comm w0 = xQueueCreate 32) by reflexivity.
  destruct (control_iterations_queue n l0 w0) as [Hcap Hlen].
  - rewrite Hq0. cbn. lia.
  - rewrite Hq0 in Hcap, Hlen. cbn [xQueueCreate q_capacity q_items
      List.length] in Hcap, Hlen.
    split; [exact Hcap|]. rewrite Hlen. reflexivity.
Qed.

(** C6. A send on the full queue is dropped, not waited for.  After
    start-up the queue has capacity 32 and, with nothing received,
    holds [min n 32] messages after [n] control iterations, so it is
    full after 32 and never holds more.  On a full queue the
    zero-timeout send leaves the world as it was and returns
    [errQUEUE_FULL], which is not [pdPASS], with no suspension in its
    trace.  The control iteration then logs the warning and carries on:
    it reports if due, resets the watchdog, waits for its next period
    and advances the sequence number, while the queue keeps exactly what
    it held. *)
Theorem full_queue_send_is_dropped (core : Z) (w : world) :
  let started n := (app_main core ;;; control_task_core0 CORE0 n) w in
  (forall n,
      q_capacity (q_ctrl_to_comm (final (started n))) = 32%nat /\
      List.length (q_items (q_ctrl_to_comm (final (started n)))) =
      Nat.min n 32) /\
  queue_full (q_ctrl_to_comm (final (started 32%nat))) = true /\
  (forall msg w',
      queue_full (q_ctrl_to_comm w') = true ->
      xQueueSend msg 0 w' =
      mk_outcome errQUEUE_FULL w' [EvQueueSend msg 0 errQUEUE_FULL]) /\
  errQUEUE_FULL <> pdPASS /\
  (forall l w',
      queue_full (q_ctrl_to_comm w') = true ->
      let msg :=
        {| t_send_us := next_time w'; seq := c_sequence_number l;
           ctrl_output := do_control_compute (c_sequence_number l) |} in
      let r := control_task_body l w' in
      q_ctrl_to_comm (final r) = q_ctrl_to_comm w' /\
      c_sequence_number (value r) = incr32 (c_sequence_number l) /\
      sent_messages (emitted r) = [] /\
      exists evs_report evs_timer,
        forallb is_report_event evs_report = true /\
        forallb is_timer_event evs_timer = true /\
        emitted r =
        [EvQueueSend msg 0 errQUEUE_FULL;
         EvLog LogWarn TAG "Control Task: Queue send failed" []]
          ++ evs_report ++ EvWdtReset :: evs_timer).
Proof.
  cbv zeta. split; [|split; [|split; [|split]]].
  - intros n. apply started_queue.
  - apply queue_full_iff.
    destruct (started_queue core 32 w) as [Hcap Hlen].
    rewrite Hcap, Hlen. cbn. lia.
  - intros msg w' Hfull. now rewrite xQueueSend_outcome, Hfull.
  - discriminate.
  - intros l w' Hfull.
    pose proof (control_task_body_queue l w') as Hq.
    pose proof (control_task_body_messages l w') as Hm.
    pose proof (control_task_body_trace l w') as Ht.
    cbv zeta in Hq, Hm, Ht. rewrite Hfull in Hq, Hm, Ht.
    split; [exact Hq|]. split; [reflexivity|]. split; [apply Hm|].
    exact Ht.
Qed.

Lemma seq_numbers_NoDup (k : nat) : NoDup (map Z.of_nat (List.seq 0 k)).
Proof.
  apply NoDup_map_NoDup_ForallPairs; [|apply seq_NoDup].
  intros a b _ _ Hab. lia.
Qed.

(** C7. Messages arrive once each, in the order they were sent.  Every
    control iteration stamps its message with the current sequence
    number and moves the number on by one (modulo 2^32), whether or not
    the send succeeds.  In any interleaving of control and
    communication iterations, what was in the queue followed by what
    was sent is what was received followed by what is left: nothing is
    duplicated, reordered or lost inside the queue.  In particular,
    after start-up, [k <= 32] control iterations followed by [k]
    communication iterations deliver exactly the [k] messages sent, in
    send order, with sequence numbers [0, 1, ..., k - 1], all distinct,
    and leave the queue empty. *)
Theorem fifo_delivery_in_send_order :
  (forall l w,
      let msg :=
        {| t_send_us := next_time w; seq := c_sequence_number l;
           ctrl_output := do_control_compute (c_sequence_number l) |} in
      let r := control_task_body l w in
      c_sequence_number (value r) = incr32 (c_sequence_number l) /\
      sent_messages (emitted r) =
      (if queue_full (q_ctrl_to_comm w) then [] else [msg])) /\
  (forall ts s w,
      let r := run_schedule ts s w in
      q_items (q_ctrl_to_comm w) ++ sent_messages (emitted r) =
      received_messages (emitted r) ++ q_items (q_ctrl_to_comm (final r))) /\
  (forall k core w,
      (k <= 32)%nat ->
      let b := boot core w in
      let r1 := run_schedule (repeat TurnControl k) (value b) (final b) in
      let r2 := run_schedule (repeat TurnComm k) (value r1) (final r1) in
      List.length (sent_messages (emitted r1)) = k /\
      received_messages (emitted r2) = sent_messages (emitted r1) /\
      map seq (received_messages (emitted r2)) = map Z.of_nat (List.seq 0 k) /\
      NoDup (map seq (received_messages (emitted r2))) /\
      q_items (q_ctrl_to_comm (final r2)) = []).
Proof.
  split; [|split].
  - intros l w. cbv zeta. split; [reflexivity|].
    apply control_task_body_messages.
  - intros ts s w. apply run_schedule_fifo.
  - intros k core w Hk. cbv zeta.
    set (b := boot core w).
    assert (Hq0 : q_ctrl_to_comm (final b) = xQueueCreate 32) by reflexivity.
    assert (Hc0 : c_sequence_number (sys_ctrl (value b)) = 0) by reflexivity.
    destruct (control_turns_fill k (value b) (final b))
      as (Hcap & Hitems & Hseq).
    { rewrite Hq0. cbn. lia. }
    { rewrite Hc0. unfold UINT32_MAX. lia. }
    set (r1 := run_schedule (repeat TurnControl k) (value b) (final b)) in *.
    rewrite Hq0 in Hitems. cbn [xQueueCreate q_items app] in Hitems.
    assert (Hnum : map seq (sent_messages (emitted r1)) =
                   map Z.of_nat (List.seq 0 k)).
    { rewrite Hseq, Hc0. apply map_ext_in. intros i Hi.
      apply in_seq in Hi. cbn [Z.add]. apply wrap_uint32_small.
      unfold UINT32_MAX. lia. }
    assert (Hlen : List.length (sent_messages (emitted r1)) = k).
    { rewrite <- (length_map seq), Hnum, length_map. apply length_seq. }
    destruct (comm_turns_drain (sent_messages (emitted r1))
                (value r1) (final r1) Hitems) as (Hrecv & Hempty).
    rewrite Hlen in Hrecv, Hempty.
    rewrite Hrecv. split; [exact Hlen|]. split; [reflexivity|].
    split; [exact Hnum|]. split; [|exact Hempty].
    rewrite Hnum. apply seq_numbers_NoDup.
Qed.

(** *** The deadline variable of the control loop *)

Lemma control_task_body_deadline (l : ctrl_locals) (w : world) :
  c_next_deadline_us (value (control_task_body l w)) =
  if c_next_deadline_us l =? 0
  then add64 (clock w (S (S (clock_reads w)))) CTRL_PERIOD_US
  else add64 (c_next_deadline_us l) CTRL_PERIOD_US.
Proof.
  unfold control_task_body. hide_workload. run_binds.
  cbn [c_next_deadline_us]. rewrite delay_until_us_value.
  destruct (c_next_deadline_us l =? 0); [|reflexivity].
  cbn [final esp_task_wdt_reset emit].
  rewrite (report_if_due_keeps_world _ _ _ _ _ _).
  rewrite xQueueSend_outcome.
  cbn [final esp_timer_get_time q_ctrl_to_comm].
  destruct (queue_full _); reflexivity.
Qed.

Lemma control_iterations_deadline (n : nat) :
  forall (l : ctrl_locals) (w : world),
    0 < c_next_deadline_us l ->
    c_next_deadline_us l + Z.of_nat n * CTRL_PERIOD_US <= INT64_MAX ->
    c_next_deadline_us (value (iterate n control_task_body l w)) =
    c_next_deadline_us l + Z.of_nat n * CTRL_PERIOD_US.
Proof.
  induction n as [|n IH]; intros l w Hd Hmax; cbn [iterate].
  - cbn. lia.
  - rewrite bind_value.
    assert (Hstep : c_next_deadline_us (value (control_task_body l w)) =
                    c_next_deadline_us l + CTRL_PERIOD_US).
    { rewrite control_task_body_deadline.
      replace (_ =? 0) with false by (symmetry; apply Z.eqb_neq; lia).
      apply add64_exact.
      unfold fits_int64, INT64_MIN, INT64_MAX, CTRL_PERIOD_US in *.
      cbn in *. lia. }
    rewrite IH; rewrite Hstep; unfold CTRL_PERIOD_US in *; cbn in *; lia.
Qed.

(** C1. Fixed-rate scheduling without drift.  For a period [P > 0]: a
    call on a fresh timer variable stores [now + P]; a call on a set
    variable stores the old deadline plus [P], whatever the clock reads;
    and [n] calls in a row from a fresh variable, started at clock value
    [start >= 0], store exactly [start + P, start + 2P, ..., start + nP]
    (as long as the last of them fits [int64_t]).  The same holds inside
    the control loop, overrun or not: with [start] the clock value its
    first timer call reads (the third read of the first iteration), the
    deadline after [n >= 1] iterations is [start + n * CTRL_PERIOD_US]. *)
Theorem drift_free_deadlines (P : Z) :
  0 < P ->
  (forall w, value (delay_until_us 0 P w) = add64 (next_time w) P) /\
  (forall d w, d <> 0 -> value (delay_until_us d P w) = add64 d P) /\
  (forall n w,
      0 <= next_time w ->
      next_time w + Z.of_nat n * P <= INT64_MAX ->
      value (delay_until_us_calls n 0 P w) =
      map (fun k => next_time w + Z.of_nat k * P) (List.seq 1 n)) /\
  (forall n l w,
      c_next_deadline_us l = 0 ->
      let start := clock w (S (S (clock_reads w))) in
      0 <= start ->
      start + Z.of_nat (S n) * CTRL_PERIOD_US <= INT64_MAX ->
      c_next_deadline_us (value (iterate (S n) control_task_body l w)) =
      start + Z.of_nat (S n) * CTRL_PERIOD_US).
Proof.
  intros HP. split; [|split; [|split]].
  - intros w. now rewrite delay_until_us_value.
  - intros d w Hd. rewrite delay_until_us_value.
    now apply Z.eqb_neq in Hd as ->.
  - intros [|n] w Hnow Hmax; [reflexivity|].
    cbn [delay_until_us_calls]. unfold bind at 1. cbn [value ret].
    unfold bind at 1. cbn [value ret].
    rewrite delay_until_us_value. cbn [Z.eqb].
    rewrite add64_exact
      by (unfold fits_int64, INT64_MIN, INT64_MAX in *; lia).
    rewrite delay_until_us_calls_from_set by lia.
    cbn [List.seq map]. f_equal; [lia|].
    rewrite <- (seq_shift n 1), map_map. apply map_ext. intros k. lia.
  - intros n l w Hfresh. cbv zeta. intros Hstart Hmax.
    cbn [iterate]. rewrite bind_value.
    assert (Hfirst : c_next_deadline_us (value (control_task_body l w)) =
                     clock w (S (S (clock_reads w))) + CTRL_PERIOD_US).
    { rewrite control_task_body_deadline, Hfresh. cbn [Z.eqb].
      apply add64_exact.
      unfold fits_int64, INT64_MIN, INT64_MAX, CTRL_PERIOD_US in *.
      cbn in *. lia. }
    rewrite control_iterations_deadline; rewrite Hfirst;
      unfold CTRL_PERIOD_US in *; cbn in *; lia.
Qed.

End Tasks.

Transparent do_control_compute.

(** * Concrete runs

    The theorems above instantiated on [sample_platform] and
    [sample_world], and a few runs of the model evaluated outright. *)

Lemma drift_free_deadlines_witness :
  0 < 1000 /\
  value (delay_until_us_calls (H := sample_platform) 3 0 1000
           (sample_world 5 10)) = [1005; 2005; 3005].
Proof.
  split; [lia|].
  destruct (@drift_free_deadlines sample_platform 1000 ltac:(lia))
    as (_ & _ & Hrun & _).
  rewrite (Hrun 3%nat (sample_world 5 10)).
  - reflexivity.
  - vm_compute. discriminate.
  - vm_compute. discriminate.
Defined.

Lemma first_tick_seeds_only_witness :
  [5; 1005; 2005] <> [] /\
  Forall (fun t => 0 < t) [5; 1005; 2005] /\
  count (stats_updates (stats_init (mk_period_stats 0 0 0 0 0) 1000)
           [5; 1005; 2005]) = 2.
Proof.
  assert (Hne : [5; 1005; 2005] <> []) by discriminate.
  assert (Hpos : Forall (fun t => 0 < t) [5; 1005; 2005])
    by (repeat constructor).
  split; [exact Hne|]. split; [exact Hpos|].
  destruct (first_tick_seeds_only (mk_period_stats 0 0 0 0 0) 1000
              [5; 1005; 2005] Hne Hpos) as (_ & _ & Hcount).
  apply Hcount. vm_compute. discriminate.
Defined.

Lemma zero_sample_report_emits_nothing_witness :
  count (mk_period_stats 5 1000 0 0 0) = 0 /\
  stats_report_and_clear TAG "Control Loop Stats"
    (mk_period_stats 5 1000 0 0 0) (sample_world 5 10) =
  mk_outcome tt (sample_world 5 10) [] /\
  report_if_due "Control Loop Stats" 1000 (mk_period_stats 5 1000 0 0 0)
    0 1000005 (sample_world 5 10) =
  mk_outcome (mk_period_stats 0 1000 0 0 0, 1000005) (sample_world 5 10) [].
Proof.
  assert (Hc : count (mk_period_stats 5 1000 0 0 0) = 0) by reflexivity.
  split; [exact Hc|].
  destruct (zero_sample_report_emits_nothing_caller_resets
              TAG "Control Loop Stats" (mk_period_stats 5 1000 0 0 0)
              (sample_world 5 10) Hc) as (Hhelper & Hblock).
  split; [exact Hhelper|].
  destruct (Hblock 1000 0 1000005) as (He & Hf & _ & Hdue).
  destruct (report_if_due "Control Loop Stats" 1000
              (mk_period_stats 5 1000 0 0 0) 0 1000005 (sample_world 5 10))
    as [v wf evs] eqn:Hrun.
  cbn [emitted final value] in He, Hf, Hdue.
  rewrite He, Hf, (Hdue eq_refl). reflexivity.
Defined.

(** A tracker that has seen one tick has a baseline and no sample yet.
    At a due report boundary the block still re-initialises it, so the
    baseline is lost although nothing was reported: the statistics are
    not all left as they were.  The second part is the same in the
    control loop itself, on its first pass when that pass ends two
    seconds after start: the tick it has just recorded is forgotten. *)
Lemma zero_sample_report_clears_baseline :
  count (mk_period_stats 5 1000 0 0 0) = 0 /\
  fst (value (report_if_due "Control Loop Stats" 1000
                (mk_period_stats 5 1000 0 0 0) 0 1000005
                (sample_world 5 10))) <> mk_period_stats 5 1000 0 0 0 /\
  count (stats_update (c_stats sample_ctrl_locals) 2000005) = 0 /\
  prev_tick_us (stats_update (c_stats sample_ctrl_locals) 2000005) = 2000005 /\
  prev_tick_us
    (c_stats (value (control_task_body (H := sample_platform)
                       sample_ctrl_locals (sample_world 5 2000000)))) = 0.
Proof.
  split; [reflexivity|]. split; [|repeat split; vm_compute; reflexivity].
  intros Heq. apply (f_equal prev_tick_us) in Heq. vm_compute in Heq.
  discriminate.
Qed.

(** The value the workload hands to the message for [k = 3]:
    16126967 * 2^-23, about 1.9225. *)
Example control_output_sample :
  do_control_compute 3 = S754_finite false 16126967 (-23).
Proof. vm_compute. reflexivity. Qed.

Lemma deadline_positive_invariant_witness :
  0 < 1000 /\
  timer_reachable (H := sample_platform) 1000 0 /\
  0 <= next_time (sample_world 5 10) /\
  deadline_fits 0 1000 (next_time (sample_world 5 10)) /\
  0 < value (delay_until_us (H := sample_platform) 0 1000 (sample_world 5 10)).
Proof.
  assert (HP : 0 < 1000) by lia.
  assert (Hr : timer_reachable (H := sample_platform) 1000 0)
    by apply timer_fresh.
  assert (Hnow : 0 <= next_time (sample_world 5 10))
    by (vm_compute; discriminate).
  assert (Hfit : deadline_fits 0 1000 (next_time (sample_world 5 10)))
    by (vm_compute; discriminate).
  repeat (split; [assumption|]).
  exact (proj1 (@deadline_positive_invariant sample_platform 1000 0
                  (sample_world 5 10) HP Hr Hnow Hfit)).
Defined.

(** A report on a non-empty window does divide and log. *)
Example report_after_two_samples :
  emitted
    (stats_report_and_clear TAG "Control Loop Stats"
       (stats_updates (stats_init (mk_period_stats 0 0 0 0 0) 1000)
          [5; 1005; 2055])
       (sample_world 5 10)) =
  [EvFDiv 50%float 2%float; EvFDiv 25%float 1000%float;
   EvFDiv 50%float 1000%float; EvFDiv 1e6%float 1000%float;
   EvLog LogInfo TAG "%s: %.1f Hz (jitter avg: ±%.2f%%, max: ±%.2f%%)"
     [ArgStr "Control Loop Stats"; ArgDouble 1000%float;
      ArgDouble 2.5%float; ArgDouble 5%float]].
Proof. vm_compute. reflexivity. Qed.

(** A timer behind schedule returns at once; one ahead of schedule by
    20 ms sleeps two ticks of the 100 Hz platform. *)
Example timer_behind_schedule :
  delay_until_us (H := sample_platform) 1000 1000
    (sample_world 5000 10) =
  mk_outcome 2000
    {| clock := clock (sample_world 5000 10); clock_reads := 1;
       q_ctrl_to_comm := xQueueCreate 32; bg_n := 0; free_heap := 200000 |}
    [].
Proof. reflexivity. Qed.

Example timer_ahead_of_schedule :
  emitted (delay_until_us (H := sample_platform) 24000 1000
             (sample_world 5000 10)) = [EvDelay 2].
Proof. vm_compute. reflexivity. Qed.

(** Thirty-three control iterations after start-up: the last send is
    refused and logged, and the queue still holds 32 messages. *)
Example thirty_third_send_is_refused :
  let r := (app_main 0 ;;; control_task_core0 (H := sample_platform) CORE0 33)
             (sample_world 5 10) in
  List.length (q_items (q_ctrl_to_comm (final r))) = 32%nat /\
  count_events
    (fun e => match e with EvLog LogWarn _ _ _ => true | _ => false end)
    (emitted r) = 1%nat /\
  c_sequence_number (value r) = 33.
Proof. vm_compute. repeat split. Qed.

(** * Further properties of the code

    Behaviour of the same programs beyond the statements above: the
    workloads, the background task, the reporting paths, the accounting
    of the control loop's sends, and the run-time statistics clock. *)

(** X1. The run-time statistics clock counts whole milliseconds.  The
    value is the clock's microseconds divided by 1000, rounded down,
    kept in 32 bits: exact for the first 2^32 ms after boot (about 49.7
    days), non-decreasing over that span, and back to the same values
    2^32 ms later. *)
Theorem run_time_stats_whole_milliseconds (w : world) :
  let t := next_time w in
  let r := value (vPortGetRunTimeStats w) in
  0 <= r <= UINT32_MAX /\
  (0 <= t < 1000 * 2 ^ 32 -> 1000 * r <= t < 1000 * r + 1000) /\
  (forall w',
      0 <= t -> next_time w' = t + 1000 * 2 ^ 32 ->
      value (vPortGetRunTimeStats w') = r) /\
  (forall w',
      0 <= t <= next_time w' -> next_time w' < 1000 * 2 ^ 32 ->
      r <= value (vPortGetRunTimeStats w')).
Proof.
  cbv zeta.
  assert (Hval : forall w0,
             value (vPortGetRunTimeStats w0) =
             wrap_uint32 (Z.quot (next_time w0) 1000)) by reflexivity.
  assert (Hexact : forall x, 0 <= x < 1000 * 2 ^ 32 ->
             wrap_uint32 (Z.quot x 1000) = x / 1000).
  { intros x Hx. rewrite Z.quot_div_nonneg by lia.
    apply wrap_uint32_small. unfold UINT32_MAX.
    pose proof (Z.div_lt_upper_bound x 1000 (2 ^ 32)).
    pose proof (Z.div_pos x 1000). lia. }
  rewrite Hval. split; [apply wrap_uint32_range|]. split; [|split].
  - intros Ht. rewrite Hexact by lia.
    pose proof (Z.mul_div_le (next_time w) 1000).
    pose proof (Z.mul_succ_div_gt (next_time w) 1000). lia.
  - intros w' Ht Hw'. rewrite Hval, Hw'.
    rewrite !Z.quot_div_nonneg by lia.
    replace (next_time w + 1000 * 2 ^ 32)
      with (next_time w + 2 ^ 32 * 1000) by lia.
    rewrite Z.div_add by lia.
    unfold wrap_uint32.
    replace (next_time w / 1000 + 2 ^ 32)
      with (next_time w / 1000 + 1 * 2 ^ 32) by lia.
    apply Z_mod_plus_full.
  - intros w' Ht Hw'. rewrite Hval, !Hexact by lia.
    apply Z.div_le_mono; lia.
Qed.

Section MoreTimer.
Context `{Platform}.

(** A call made when the new deadline is already due: one clock read,
    nothing emitted. *)
Lemma delay_until_us_behind (d P : Z) (w : world) :
  sub64 (if d =? 0 then add64 (next_time w) P else add64 d P) (next_time w)
  <= 0 ->
  delay_until_us d P w =
  mk_outcome (if d =? 0 then add64 (next_time w) P else add64 d P)
    {| clock := clock w; clock_reads := S (clock_reads w);
       q_ctrl_to_comm := q_ctrl_to_comm w; bg_n := bg_n w;
       free_heap := free_heap w |}
    [].
Proof.
  intros Hwait. unfold delay_until_us, bind, esp_timer_get_time. cbn.
  apply Z.leb_le in Hwait. now rewrite Hwait.
Qed.

(** X2. Catching up after an overrun.  When a set timer is [n] periods
    behind (every clock value read from now on is at least the old
    deadline plus [n] periods), the next [n] calls all return at once:
    no sleep and no yield, one clock read each, and the deadline moves
    by exactly one period per call, so the schedule stays anchored where
    it was instead of restarting from the current time. *)
Theorem overrun_is_caught_up_without_sleeping (P : Z) (n : nat) :
  0 < P ->
  forall (d : Z) (w : world),
    0 < d ->
    (forall i, d + Z.of_nat n * P <= clock w i <= INT64_MAX) ->
    let r := delay_until_us_calls n d P w in
    emitted r = [] /\
    value r = map (fun k => d + Z.of_nat k * P) (List.seq 1 n) /\
    clock_reads (final r) = (clock_reads w + n)%nat /\
    clock (final r) = clock w.
Proof.
  intros HP. induction n as [|n IH]; intros d w Hd Hclock; cbv zeta.
  - cbn. repeat split. lia.
  - cbn [delay_until_us_calls]. run_binds.
    pose proof (Hclock (clock_reads w)) as Hnow. fold (next_time w) in Hnow.
    assert (Hd' : (if d =? 0 then add64 (next_time w) P else add64 d P)
                  = d + P).
    { replace (d =? 0) with false by (symmetry; apply Z.eqb_neq; lia).
      apply add64_exact. unfold fits_int64, INT64_MIN, INT64_MAX in *. lia. }
    rewrite delay_until_us_behind; rewrite Hd'.
    2:{ unfold sub64. rewrite wrap_int64_fits;
          unfold fits_int64, INT64_MIN, INT64_MAX in *; lia. }
    cbn [value final emitted].
    set (w1 := {| clock := clock w; clock_reads := S (clock_reads w);
                  q_ctrl_to_comm := q_ctrl_to_comm w; bg_n := bg_n w;
                  free_heap := free_heap w |}).
    destruct (IH (d + P) w1) as (He & Hv & Hr & Hc); [lia| |].
    { intros i. specialize (Hclock i). cbn [w1 clock]. lia. }
    rewrite He, Hv, Hr, Hc. cbn [w1 clock clock_reads app].
    split; [reflexivity|]. split; [|split; [lia|reflexivity]].
    cbn [List.seq map]. f_equal; [lia|].
    rewrite <- (seq_shift n 1), map_map. apply map_ext. intros k. lia.
Qed.

End MoreTimer.

(** ** The control workload *)

Lemma do_control_compute_low_bits (a b : Z) :
  Z.land a 7 = Z.land b 7 -> do_control_compute a = do_control_compute b.
Proof.
  intros Hab. unfold do_control_compute. cbv zeta.
  generalize (control_accumulate 200 0 F32.zero). intros acc.
  now rewrite Hab.
Qed.

Lemma land_7_mod_8 (k : Z) : Z.land k 7 = k mod 8.
Proof.
  change 7 with (Z.ones 3). rewrite Z.land_ones by lia. reflexivity.
Qed.

(** X3. The control output only depends on the low three bits of its
    argument and is always an ordinary number.  For every [k] the
    result equals the result for [k mod 8]; it is a finite positive
    binary32 value [m * 2^-23] with [m] between 15875309 (about 1.8925,
    the accumulated square roots alone) and 16462512 (about 1.9625):
    never a NaN, an infinity or a negative number. *)
Theorem control_output_low_bits_and_range (k : Z) :
  do_control_compute k = do_control_compute (k mod 8) /\
  exists m,
    do_control_compute k = S754_finite false m (-23) /\
    15875309 <= Z.pos m <= 16462512.
Proof.
  assert (Hmod : do_control_compute k = do_control_compute (k mod 8)).
  { apply do_control_compute_low_bits.
    rewrite !land_7_mod_8. symmetry. apply Z.mod_mod. lia. }
  split; [exact Hmod|]. rewrite Hmod.
  pose proof (Z.mod_pos_bound k 8 ltac:(lia)) as Hk.
  assert (Hcases : k mod 8 = 0 \/ k mod 8 = 1 \/ k mod 8 = 2 \/ k mod 8 = 3 \/
                   k mod 8 = 4 \/ k mod 8 = 5 \/ k mod 8 = 6 \/ k mod 8 = 7)
    by lia.
  destruct Hcases as [-> | [-> | [-> | [-> | [-> | [-> | [-> | ->]]]]]]];
    eexists; (split; [vm_compute; reflexivity | lia]).
Qed.

(** ** Ticks that arrive exactly on period *)

Lemma stats_update_on_period (P t c : Z) :
  0 < P <= INT64_MAX ->
  PrimFloat.abs (Z2double P - Z2double P) = 0%float ->
  t <> 0 ->
  stats_update
    {| prev_tick_us := t; target_period_us := P;
       err_abs_sum_us := 0%float; err_abs_max_us := 0%float; count := c |}
    (t + P) =
  {| prev_tick_us := t + P; target_period_us := P;
     err_abs_sum_us := 0%float; err_abs_max_us := 0%float;
     count := incr32 c |}.
Proof.
  intros HP Hzero Ht. unfold stats_update. cbn [prev_tick_us].
  apply Z.eqb_neq in Ht. rewrite Ht. cbn [target_period_us err_abs_sum_us
    err_abs_max_us count].
  unfold sub64. replace (t + P - t) with P by lia.
  rewrite wrap_int64_fits
    by (unfold fits_int64, INT64_MIN, INT64_MAX in *; lia).
  rewrite Hzero. reflexivity.
Qed.

Lemma stats_updates_on_period (P : Z) (n : nat) :
  0 < P <= INT64_MAX ->
  PrimFloat.abs (Z2double P - Z2double P) = 0%float ->
  forall (t c : Z),
    0 < t ->
    stats_updates
      {| prev_tick_us := t; target_period_us := P;
         err_abs_sum_us := 0%float; err_abs_max_us := 0%float;
         count := wrap_uint32 c |}
      (periodic_ticks t P n) =
    {| prev_tick_us := t + Z.of_nat n * P; target_period_us := P;
       err_abs_sum_us := 0%float; err_abs_max_us := 0%float;
       count := wrap_uint32 (c + Z.of_nat n) |}.
Proof.
  intros HP Hzero. induction n as [|n IH]; intros t c Ht.
  - cbn. now rewrite !Z.add_0_r.
  - cbn [periodic_ticks]. unfold stats_updates. cbn [fold_left].
    rewrite stats_update_on_period by (assumption || lia).
    replace (incr32 (wrap_uint32 c)) with (wrap_uint32 (c + 1)).
    + fold (stats_updates
              {| prev_tick_us := t + P; target_period_us := P;
                 err_abs_sum_us := 0%float; err_abs_max_us := 0%float;
                 count := wrap_uint32 (c + 1) |}
              (periodic_ticks (t + P) P n)).
      rewrite IH by lia. f_equal; [lia | f_equal; lia].
    + unfold incr32, wrap_uint32. now rewrite Zplus_mod_idemp_l.
Qed.

(** X4. Ticks exactly on period measure as zero jitter.  For the two
    periods the program uses (1000 and 2000 microseconds), a tracker
    that is initialised, seeded at a time [t0 > 0] and then ticked [n]
    times exactly one period apart ends with the baseline at the last
    tick, [n] samples counted (modulo 2^32), and both the accumulated
    and the maximum absolute error still exactly zero. *)
Theorem on_period_ticks_measure_zero_error
    (s0 : period_stats_t) (P t0 : Z) (n : nat) :
  P = CTRL_PERIOD_US \/ P = DAQ_PERIOD_US ->
  0 < t0 ->
  stats_updates (stats_init s0 P) (t0 :: periodic_ticks t0 P n) =
  {| prev_tick_us := t0 + Z.of_nat n * P; target_period_us := P;
     err_abs_sum_us := 0%float; err_abs_max_us := 0%float;
     count := wrap_uint32 (Z.of_nat n) |}.
Proof.
  intros HP Ht0.
  change (stats_updates (stats_init s0 P) (t0 :: periodic_ticks t0 P n))
    with (stats_updates (stats_update (stats_init s0 P) t0)
            (periodic_ticks t0 P n)).
  change (stats_update (stats_init s0 P) t0)
    with {| prev_tick_us := t0; target_period_us := P;
            err_abs_sum_us := 0%float; err_abs_max_us := 0%float;
            count := wrap_uint32 0 |}.
  rewrite stats_updates_on_period; [reflexivity | | | exact Ht0];
    destruct HP as [-> | ->];
    solve [ unfold INT64_MAX; vm_compute; split; congruence
          | vm_compute; reflexivity ].
Qed.

(** ** The background task *)

Section Background.
Context `{Platform}.

Lemma background_task_body_run (w : world) :
  let n := incr32 (bg_n w) in
  background_task_body tt w =
  mk_outcome tt
    {| clock := clock w; clock_reads := clock_reads w;
       q_ctrl_to_comm := q_ctrl_to_comm w; bg_n := n;
       free_heap := free_heap w |}
    (EvDelay (pdMS_TO_TICKS 50)
       :: (if n mod 20 =? 0
           then [EvLog LogInfo TAG "BG alive. Free heap ~ %d bytes"
                   [ArgInt (wrap_int32 (free_heap w))]]
           else [])).
Proof.
  cbv zeta. unfold background_task_body, do_background_work, vTaskDelay,
    set_bg_n, esp_get_free_heap_size, ESP_LOGI, bind, emit, ret.
  cbn. destruct (incr32 (bg_n w) mod 20 =? 0); reflexivity.
Qed.

Lemma multiples_of_20_step (c : Z) :
  0 <= c ->
  (c + 1) / 20 - c / 20 = if (c + 1) mod 20 =? 0 then 1 else 0.
Proof.
  intros Hc. destruct ((c + 1) mod 20 =? 0) eqn:Hm.
  - apply Z.eqb_eq in Hm. Z.div_mod_to_equations. lia.
  - apply Z.eqb_neq in Hm. Z.div_mod_to_equations. lia.
Qed.

(** X5. The background task reports liveness on every twentieth
    iteration.  Starting with its static counter at [c], over [n]
    iterations that do not take the counter past 2^32 - 1: the counter
    ends at [c + n], every iteration sleeps exactly once (for the tick
    equivalent of 50 ms), the liveness line is logged once for each
    multiple of 20 the counter reaches, that is [(c + n) / 20 - c / 20]
    times, and the queue is left alone. *)
Theorem background_reports_every_twentieth (n : nat) :
  forall w : world,
    0 <= bg_n w ->
    bg_n w + Z.of_nat n <= UINT32_MAX ->
    let r := iterate n background_task_body tt w in
    bg_n (final r) = bg_n w + Z.of_nat n /\
    Z.of_nat (count_events is_bg_alive (emitted r)) =
    (bg_n w + Z.of_nat n) / 20 - bg_n w / 20 /\
    count_events is_delay (emitted r) = n /\
    Forall (fun e => is_delay e = true -> e = EvDelay (pdMS_TO_TICKS 50))
      (emitted r) /\
    q_ctrl_to_comm (final r) = q_ctrl_to_comm w.
Proof.
  induction n as [|n IH]; intros w Hc Hmax; cbv zeta.
  - cbn. rewrite Z.add_0_r, Z.sub_diag. repeat split. constructor.
  - cbn [iterate]. run_binds.
    pose proof (background_task_body_run w) as Hrun. cbv zeta in Hrun.
    rewrite Hrun. cbn [value final emitted].
    assert (Hincr : incr32 (bg_n w) = bg_n w + 1)
      by (apply wrap_uint32_small; lia).
    rewrite Hincr.
    set (w1 := {| clock := clock w; clock_reads := clock_reads w;
                  q_ctrl_to_comm := q_ctrl_to_comm w; bg_n := bg_n w + 1;
                  free_heap := free_heap w |}).
    destruct (IH w1) as (Hn & Halive & Hdelay & Hall & Hq);
      [cbn [w1 bg_n]; lia | cbn [w1 bg_n]; lia |].
    cbn [w1 bg_n q_ctrl_to_comm] in Hn, Halive, Hq.
    rewrite Hn, Hq.
    cbn [app].
    rewrite !count_events_cons, !count_events_app, Hdelay.
    split; [lia|]. split; [|split; [|split; [|reflexivity]]].
    + replace (bg_n w + Z.of_nat (S n)) with (bg_n w + 1 + Z.of_nat n)
        by lia.
      rewrite !Nat2Z.inj_add, Halive.
      pose proof (multiples_of_20_step (bg_n w) Hc) as Hstep.
      destruct ((bg_n w + 1) mod 20 =? 0);
        change (Z.of_nat (count_events is_bg_alive [])) with 0;
        change (Z.of_nat (if is_bg_alive (EvDelay (pdMS_TO_TICKS 50))
                          then 1 else 0)) with 0;
        try change (Z.of_nat (count_events is_bg_alive [_])) with 1;
        lia.
    + destruct ((bg_n w + 1) mod 20 =? 0);
        change (is_delay (EvDelay (pdMS_TO_TICKS 50))) with true;
        cbv iota;
        try change (count_events is_delay [_]) with 0%nat;
        try change (count_events is_delay []) with 0%nat;
        lia.
    + constructor; [reflexivity|]. apply Forall_app. split; [|exact Hall].
      destruct ((bg_n w + 1) mod 20 =? 0); repeat constructor; discriminate.
Qed.

End Background.

(** ** The control loop: sends, sequence numbers, reports *)

Opaque do_control_compute.

Section MoreControl.
Context `{Platform}.

Lemma stats_report_and_clear_trace (tag_name label : string)
    (s : period_stats_t) (w : world) :
  let cnt := Z2double (count s) in
  let tgt := Z2double (target_period_us s) in
  emitted (stats_report_and_clear tag_name label s w) =
  if count s =? 0 then []
  else
    [EvFDiv (err_abs_sum_us s) cnt;
     EvFDiv (err_abs_sum_us s / cnt) tgt;
     EvFDiv (err_abs_max_us s) tgt;
     EvFDiv 1e6 tgt;
     EvLog LogInfo tag_name
       "%s: %.1f Hz (jitter avg: ±%.2f%%, max: ±%.2f%%)"
       [ArgStr label; ArgDouble (1e6 / tgt);
        ArgDouble (err_abs_sum_us s / cnt / tgt * 100);
        ArgDouble (err_abs_max_us s / tgt * 100)]]%float.
Proof.
  cbv zeta. unfold stats_report_and_clear.
  destruct (count s =? 0); reflexivity.
Qed.

Lemma report_if_due_trace (label : string) (period_us : Z)
    (stats : period_stats_t) (last_report now : Z) (w : world) :
  emitted (report_if_due label period_us stats last_report now w) =
  if sub64 now last_report >=? REPORT_MS * 1000
  then emitted (stats_report_and_clear TAG label stats w)
  else [].
Proof.
  unfold report_if_due. destruct (_ >=? _); [|reflexivity].
  run_binds. apply app_nil_r.
Qed.

(** The trace of one control iteration with its reporting part spelled
    out. *)
Lemma control_task_body_trace_report (l : ctrl_locals) (w : world) :
  let msg :=
    {| t_send_us := next_time w; seq := c_sequence_number l;
       ctrl_output := do_control_compute (c_sequence_number l) |} in
  let end_time := clock w (S (clock_reads w)) in
  let stats := stats_update (c_stats l) end_time in
  exists w' evs_timer,
    forallb is_timer_event evs_timer = true /\
    emitted (control_task_body l w) =
    (if queue_full (q_ctrl_to_comm w)
     then [EvQueueSend msg 0 errQUEUE_FULL;
           EvLog LogWarn TAG "Control Task: Queue send failed" []]
     else [EvQueueSend msg 0 pdPASS])
      ++ (if sub64 end_time (c_last_report_time l) >=? REPORT_MS * 1000
          then emitted (stats_report_and_clear TAG "Control Loop Stats"
                          stats w')
          else [])
      ++ EvWdtReset :: evs_timer.
Proof.
  cbv zeta. unfold control_task_body. hide_workload. run_binds.
  rewrite xQueueSend_outcome.
  cbn [final esp_timer_get_time q_ctrl_to_comm emitted value].
  destruct (queue_full _);
    cbn [emitted negb value final Z.eqb errQUEUE_FULL pdPASS pdTRUE
           ESP_LOGW emit ret app esp_task_wdt_reset];
    rewrite app_nil_r, report_if_due_trace;
    (eexists; eexists; split; [|reflexivity]);
    apply delay_until_us_emits.
Qed.

Lemma timer_events_count (p : event -> bool) (evs : list event) :
  forallb is_timer_event evs = true ->
  (forall e, is_timer_event e = true -> p e = false) ->
  count_events p evs = 0%nat.
Proof. intros Ht Hp. exact (count_events_none p _ evs Ht Hp). Qed.

Lemma report_events_are_info_or_fdiv (tag_name label : string)
    (s : period_stats_t) (w : world) :
  forallb is_info_or_fdiv (emitted (stats_report_and_clear tag_name label s w))
  = true.
Proof.
  rewrite stats_report_and_clear_trace. now destruct (count s =? 0).
Qed.

(** One iteration: one attempt; a warning exactly when it is refused. *)
Lemma control_task_body_accounting (l : ctrl_locals) (w : world) :
  let evs := emitted (control_task_body l w) in
  let full := queue_full (q_ctrl_to_comm w) in
  count_events is_send_attempt evs = 1%nat /\
  count_events is_send_passed evs = (if full then 0 else 1)%nat /\
  count_events is_send_refused evs = (if full then 1 else 0)%nat /\
  count_events is_warn_log evs = (if full then 1 else 0)%nat.
Proof.
  cbv zeta.
  pose proof (control_task_body_trace_report l w) as Ht. cbv zeta in Ht.
  destruct Ht as (w' & et & Het & ->).
  set (rep := if _ >=? _ then _ else []).
  assert (Hrep : forallb is_info_or_fdiv rep = true).
  { unfold rep. destruct (_ >=? _); [|reflexivity].
    apply report_events_are_info_or_fdiv. }
  assert (Hr : forall p, (forall e, is_info_or_fdiv e = true -> p e = false) ->
                     count_events p rep = 0%nat)
    by (intros p Hp; exact (count_events_none p _ rep Hrep Hp)).
  assert (Ht : forall p, (forall e, is_timer_event e = true -> p e = false) ->
                     count_events p et = 0%nat)
    by (intros p Hp; exact (timer_events_count p et Het Hp)).
  rewrite !count_events_app, !count_events_cons.
  rewrite !Hr, !Ht
    by (intros e He; destruct e as [[] | | | | | | | | | |]; easy).
  destruct (queue_full _); repeat split; reflexivity.
Qed.

(** X6. Every iteration of the control loop tries to send once, and
    every refusal is logged once.  Over any [n] iterations from any
    state: exactly [n] sends are attempted, each either accepted or
    refused; the number of warnings logged equals the number of
    refusals; and the queue grows by exactly the number of accepted
    sends. *)
Theorem every_refused_send_is_logged (n : nat) :
  forall (l : ctrl_locals) (w : world),
    let r := iterate n control_task_body l w in
    count_events is_send_attempt (emitted r) = n /\
    (count_events is_send_passed (emitted r)
     + count_events is_send_refused (emitted r))%nat = n /\
    count_events is_warn_log (emitted r) =
    count_events is_send_refused (emitted r) /\
    List.length (q_items (q_ctrl_to_comm (final r))) =
    (List.length (q_items (q_ctrl_to_comm w))
     + count_events is_send_passed (emitted r))%nat.
Proof.
  induction n as [|n IH]; intros l w; cbv zeta; cbn [iterate].
  - cbn. repeat split. lia.
  - run_binds.
    pose proof (control_task_body_accounting l w) as Hb. cbv zeta in Hb.
    destruct Hb as (Ha & Hp & Hr & Hw).
    pose proof (control_task_body_queue l w) as Hq. cbv zeta in Hq.
    set (b := control_task_body l w) in *.
    destruct (IH (value b) (final b)) as (IHa & IHs & IHw & IHq).
    rewrite !count_events_app, Ha, Hp, Hr, Hw, IHa, IHw, IHq, Hq.
    destruct (queue_full (q_ctrl_to_comm w));
      cbn [q_items]; rewrite ?length_app; cbn [List.length]; lia.
Qed.

Lemma attempted_seqs_app (l1 l2 : list event) :
  attempted_seqs (l1 ++ l2) = attempted_seqs l1 ++ attempted_seqs l2.
Proof. apply flat_map_app. Qed.

Lemma control_task_body_attempt (l : ctrl_locals) (w : world) :
  attempted_seqs (emitted (control_task_body l w)) = [c_sequence_number l].
Proof.
  pose proof (control_task_body_trace l w) as Ht. cbv zeta in Ht.
  destruct Ht as (er & et & Her & Het & ->).
  change (EvWdtReset :: et) with ([EvWdtReset] ++ et).
  rewrite !attempted_seqs_app.
  unfold attempted_seqs at 2 4.
  rewrite (forallb_flat_map_nil is_report_event _ er Her)
    by (now intros []).
  rewrite (forallb_flat_map_nil is_timer_event _ et Het)
    by (now intros []).
  destruct (queue_full _); reflexivity.
Qed.

(** X7. Sequence numbers are consumed by every attempt, accepted or
    not.  From a sequence number [c] within 32 bits, the [n] messages
    handed to the queue over [n] iterations carry [c, c + 1, ..., c + n
    - 1] modulo 2^32 in that order, whatever the state of the queue, and
    the loop's next number is [c + n] modulo 2^32: a refused send leaves
    a gap in what the receiver sees. *)
Theorem sequence_numbers_count_attempts (n : nat) :
  forall (l : ctrl_locals) (w : world),
    0 <= c_sequence_number l <= UINT32_MAX ->
    let r := iterate n control_task_body l w in
    attempted_seqs (emitted r) =
    map (fun i => wrap_uint32 (c_sequence_number l + Z.of_nat i))
      (List.seq 0 n) /\
    c_sequence_number (value r) =
    wrap_uint32 (c_sequence_number l + Z.of_nat n).
Proof.
  induction n as [|n IH]; intros l w Hc; cbv zeta; cbn [iterate].
  - cbn. split; [reflexivity|]. rewrite Z.add_0_r. symmetry.
    now apply wrap_uint32_small.
  - run_binds.
    pose proof (control_task_body_locals l w) as Hl. cbv zeta in Hl.
    destruct Hl as (Hseq & _).
    set (b := control_task_body l w) in *.
    destruct (IH (value b) (final b)) as (IHa & IHc).
    { rewrite Hseq. apply wrap_uint32_range. }
    rewrite attempted_seqs_app, IHa, IHc, Hseq.
    unfold b. rewrite control_task_body_attempt.
    split.
    + cbn [List.seq map app]. f_equal.
      * rewrite Z.add_0_r. symmetry. now apply wrap_uint32_small.
      * rewrite <- (seq_shift n 0), map_map. apply map_ext. intros i.
        rewrite wrap_uint32_incr32. f_equal. lia.
    + rewrite wrap_uint32_incr32. f_equal. lia.
Qed.

(** X8. When the control loop logs its statistics, and what rate it
    prints.  In an iteration whose tracker has the control period as
    target, a statistics line is logged exactly when the reporting
    window is due and the tracker, after this iteration's tick, holds at
    least one sample; there is never more than one; and its rate field
    is always 1000.0 Hz: the nominal rate computed from the target
    period, not a rate measured from the ticks. *)
Theorem control_stats_line_is_nominal (l : ctrl_locals) (w : world) :
  target_period_us (c_stats l) = CTRL_PERIOD_US ->
  let end_time := clock w (S (clock_reads w)) in
  let stats := stats_update (c_stats l) end_time in
  let due := sub64 end_time (c_last_report_time l) >=? REPORT_MS * 1000 in
  let lines := flat_map stats_line_of (emitted (control_task_body l w)) in
  (due && negb (count stats =? 0) = true ->
   exists jitter_pct max_jitter_pct,
     lines = [[ArgStr "Control Loop Stats"; ArgDouble 1000%float;
               ArgDouble jitter_pct; ArgDouble max_jitter_pct]]) /\
  (due && negb (count stats =? 0) = false -> lines = []).
Proof.
  intros Htarget. cbv zeta.
  pose proof (control_task_body_trace_report l w) as Ht. cbv zeta in Ht.
  destruct Ht as (w' & et & Het & ->).
  change (EvWdtReset :: et) with ([EvWdtReset] ++ et).
  rewrite !flat_map_app.
  rewrite (forallb_flat_map_nil is_timer_event stats_line_of et Het)
    by (now intros []).
  assert (Hsend : forall b : bool,
             flat_map stats_line_of
               (if b
                then [EvQueueSend
                        {| t_send_us := next_time w;
                           seq := c_sequence_number l;
                           ctrl_output :=
                             do_control_compute (c_sequence_number l) |}
                        0 errQUEUE_FULL;
                      EvLog LogWarn TAG "Control Task: Queue send failed" []]
                else [EvQueueSend
                        {| t_send_us := next_time w;
                           seq := c_sequence_number l;
                           ctrl_output :=
                             do_control_compute (c_sequence_number l) |}
                        0 pdPASS]) = [])
    by (now intros []).
  rewrite Hsend. cbn [app flat_map stats_line_of]. rewrite !app_nil_r.
  rewrite stats_report_and_clear_trace, stats_update_target, Htarget.
  destruct (_ >=? _); cbn [andb].
  - destruct (count _ =? 0); cbn [negb].
    + split; [discriminate | reflexivity].
    + split; [|discriminate]. intros _. eexists. eexists.
      cbn [flat_map stats_line_of app].
      repeat f_equal.
  - split; [discriminate | reflexivity].
Qed.

(** X9. The interval that spans a report is never measured.  If one
    control iteration reaches the reporting boundary, then after the
    next iteration, provided it is not itself due, the tracker holds no
    sample: the tick of that next iteration only becomes the new
    baseline, whatever time passed since the tick before it. *)
Theorem interval_across_report_is_not_measured
    (l : ctrl_locals) (w w2 : world) :
  let e1 := clock w (S (clock_reads w)) in
  let e2 := clock w2 (S (clock_reads w2)) in
  let l1 := value (control_task_body l w) in
  let l2 := value (control_task_body l1 w2) in
  REPORT_MS * 1000 <= sub64 e1 (c_last_report_time l) ->
  sub64 e2 e1 < REPORT_MS * 1000 ->
  c_stats l2 =
  {| prev_tick_us := e2; target_period_us := CTRL_PERIOD_US;
     err_abs_sum_us := 0%float; err_abs_max_us := 0%float; count := 0 |} /\
  c_last_report_time l2 = e1.
Proof.
  cbv zeta. intros Hdue Hnot.
  pose proof (control_task_body_locals l w) as H1. cbv zeta in H1.
  destruct H1 as (_ & Hs1 & Hr1).
  apply Z.geb_le in Hdue. rewrite Hdue in Hs1, Hr1.
  pose proof (control_task_body_locals (value (control_task_body l w)) w2)
    as H2. cbv zeta in H2.
  destruct H2 as (_ & Hs2 & Hr2).
  rewrite Hr1 in Hs2, Hr2. rewrite Hs1 in Hs2.
  assert (Hnd : (sub64 (clock w2 (S (clock_reads w2)))
                   (clock w (S (clock_reads w))) >=? REPORT_MS * 1000)
                = false).
  { rewrite Z.geb_leb. apply Z.leb_gt. exact Hnot. }
  rewrite Hnd in Hs2, Hr2.
  split; [rewrite Hs2; reflexivity | exact Hr2].
Qed.

End MoreControl.

(** ** The communication loop: the latency window *)

Section MoreComm.
Context `{Platform}.

Lemma comm_report_if_due_outcome (l : comm_locals) (now : Z) (w : world) :
  comm_report_if_due l now w =
  mk_outcome
    (if sub64 now (m_last_report_time l) >=? REPORT_MS * 1000
     then {| received_count := 0; m_last_report_time := now;
             total_latency_ms := 0%float; max_latency_ms := 0%float |}
     else l)
    w
    (if sub64 now (m_last_report_time l) >=? REPORT_MS * 1000
     then
       if received_count l >? 0
       then [EvFDiv (total_latency_ms l) (Z2double (received_count l));
             EvLog LogInfo TAG "Comm Latency: Avg = %.2f ms, Max = %.2f ms"
               [ArgDouble
                  (total_latency_ms l / Z2double (received_count l))%float;
                ArgDouble (max_latency_ms l)]]
       else [EvLog LogInfo TAG "Comm Latency: No messages received" []]
     else []).
Proof.
  unfold comm_report_if_due.
  destruct (_ >=? _); [|reflexivity].
  destruct (received_count l >? 0); reflexivity.
Qed.

(** One iteration, split at the report: what was received, the
    simulated I/O, the report on the updated locals, the watchdog. *)
Lemma comm_task_body_outcome (l : comm_locals) (w : world) :
  exists (l1 : comm_locals) (now : Z) (w' : world) (received : list event),
    emitted (comm_task_body l w) =
    received ++ EvDelay (pdMS_TO_TICKS 5)
      :: emitted (comm_report_if_due l1 now w') ++ [EvWdtReset] /\
    value (comm_task_body l w) = value (comm_report_if_due l1 now w') /\
    received_count l1 =
    (match q_items (q_ctrl_to_comm w) with
     | [] => received_count l
     | _ :: _ => incr32 (received_count l)
     end) /\
    m_last_report_time l1 = m_last_report_time l /\
    now =
    (match q_items (q_ctrl_to_comm w) with
     | [] => next_time w
     | _ :: _ => clock w (S (clock_reads w))
     end) /\
    count_events is_info_log received = 0%nat /\
    count_events is_fdiv received =
    match q_items (q_ctrl_to_comm w) with
    | [] => 0%nat
    | _ :: _ => 1%nat
    end.
Proof.
  unfold comm_task_body, do_comm_io.
  rewrite bind_value, bind_emitted. cbn beta.
  unfold xQueueReceive.
  destruct (q_items (q_ctrl_to_comm w)) as [|m rest];
    cbn [value final emitted]; run_binds;
    cbn [value final emitted ret vTaskDelay emit esp_timer_get_time
           esp_task_wdt_reset fdiv bind];
    rewrite ?app_nil_r; cbn [app].
  - eexists _, _, _,
      ((if 0 <? pdMS_TO_TICKS 10
        then [EvQueueBlocked (pdMS_TO_TICKS 10)] else [])
         ++ [EvQueueReceive (pdMS_TO_TICKS 10) None]).
    split; [reflexivity|].
    split; [reflexivity|]. split; [reflexivity|]. split; [reflexivity|].
    split; [reflexivity|].
    destruct (0 <? pdMS_TO_TICKS 10); split; reflexivity.
  - eexists _, _, _, (_ :: _ :: nil).
    split; [cbn [app]; reflexivity|].
    split; [reflexivity|]. split; [reflexivity|]. split; [reflexivity|].
    split; [reflexivity|]. split; reflexivity.
Qed.

(** X10. How the communication loop keeps its latency window.  With
    [got] telling whether a message was waiting, [n1] the received count
    including it, and [now] the clock value read after the simulated
    I/O: when the window is not due, the count is [n1], the window start
    stays and nothing is logged; when it is due, exactly one line is
    logged and count, window start and both latency accumulators restart
    from zero at [now].  The only divisions are the latency of a
    received message and, at a due window, the average, which is
    computed only when [n1 > 0]: an empty window logs its line without
    dividing. *)
Theorem comm_window_accounting (l : comm_locals) (w : world) :
  let got := match q_items (q_ctrl_to_comm w) with [] => false | _ => true end in
  let now := if got then clock w (S (clock_reads w)) else next_time w in
  let n1 := if got then incr32 (received_count l) else received_count l in
  let due := sub64 now (m_last_report_time l) >=? REPORT_MS * 1000 in
  let r := comm_task_body l w in
  (due = false ->
   received_count (value r) = n1 /\
   m_last_report_time (value r) = m_last_report_time l /\
   count_events is_info_log (emitted r) = 0%nat) /\
  (due = true ->
   value r =
   {| received_count := 0; m_last_report_time := now;
      total_latency_ms := 0%float; max_latency_ms := 0%float |} /\
   count_events is_info_log (emitted r) = 1%nat) /\
  count_events is_fdiv (emitted r) =
  ((if got then 1 else 0) + (if due && (n1 >? 0) then 1 else 0))%nat /\
  (due = true -> n1 <= 0 ->
   In (EvLog LogInfo TAG "Comm Latency: No messages received" [])
     (emitted r)).
Proof.
  cbv zeta.
  destruct (comm_task_body_outcome l w)
    as (l1 & now & w' & received & He & Hv & Hrc & Hlast & Hnow & Hinfo & Hfdiv).
  rewrite He, Hv, !comm_report_if_due_outcome. cbn [value emitted].
  rewrite Hlast. clear He Hv.
  rewrite !count_events_app, !count_events_cons, !count_events_app,
    Hinfo, Hfdiv.
  cbn [is_info_log is_fdiv].
  assert (Hgot :
    (if match q_items (q_ctrl_to_comm w) with [] => false | _ :: _ => true end
     then clock w (S (clock_reads w)) else next_time w) = now /\
    (if match q_items (q_ctrl_to_comm w) with [] => false | _ :: _ => true end
     then incr32 (received_count l) else received_count l) = received_count l1).
  { rewrite Hnow, Hrc. destruct (q_items _); split; reflexivity. }
  destruct Hgot as [-> ->].
  destruct (sub64 now (m_last_report_time l) >=? REPORT_MS * 1000);
    cbn [andb];
    destruct (Z.gtb_spec (received_count l1) 0) as [Hpos|Hnone];
    (split; [intros Hd; try discriminate Hd;
             repeat split; try reflexivity; exact Hlast|]);
    (split; [intros Hd; try discriminate Hd; split; reflexivity|]);
    (split; [destruct (q_items _); reflexivity|]);
    intros Hd Hn; try discriminate Hd; try lia.
  apply in_or_app. right. right. left. reflexivity.
Qed.

End MoreComm.

(** ** The acquisition loop: its schedule *)

Section MoreDaq.
Context `{Platform}.

Lemma daq_task_body_deadline (l : daq_locals) (w : world) :
  d_next_deadline_us (value (daq_task_body l w)) =
  if d_next_deadline_us l =? 0
  then add64 (clock w (S (clock_reads w))) DAQ_PERIOD_US
  else add64 (d_next_deadline_us l) DAQ_PERIOD_US.
Proof.
  unfold daq_task_body, do_daq_read. run_binds.
  cbn [d_next_deadline_us]. rewrite delay_until_us_value.
  destruct (d_next_deadline_us l =? 0); [|reflexivity].
  rewrite (report_if_due_keeps_world _ _ _ _ _ _). reflexivity.
Qed.

Lemma daq_iterations_deadline (n : nat) :
  forall (l : daq_locals) (w : world),
    0 < d_next_deadline_us l ->
    d_next_deadline_us l + Z.of_nat n * DAQ_PERIOD_US <= INT64_MAX ->
    d_next_deadline_us (value (iterate n daq_task_body l w)) =
    d_next_deadline_us l + Z.of_nat n * DAQ_PERIOD_US.
Proof.
  induction n as [|n IH]; intros l w Hd Hmax; cbn [iterate].
  - cbn. lia.
  - rewrite bind_value.
    assert (Hstep : d_next_deadline_us (value (daq_task_body l w)) =
                    d_next_deadline_us l + DAQ_PERIOD_US).
    { rewrite daq_task_body_deadline.
      replace (_ =? 0) with false by (symmetry; apply Z.eqb_neq; lia).
      apply add64_exact.
      unfold fits_int64, INT64_MIN, INT64_MAX, DAQ_PERIOD_US in *.
      cbn in *. lia. }
    rewrite IH; rewrite Hstep; unfold DAQ_PERIOD_US in *; cbn in *; lia.
Qed.

(** X11. The acquisition loop keeps a fixed 2000-microsecond schedule.
    Starting with its deadline unset, and with [start >= 0] the clock
    value its first timer call reads (the second read of the first
    iteration), the deadline after [n >= 1] iterations is exactly
    [start + n * 2000], whatever the later clock values, as long as
    that fits [int64_t]; and no iteration touches the queue. *)
Theorem acquisition_schedule_is_fixed_rate (n : nat)
    (l : daq_locals) (w : world) :
  d_next_deadline_us l = 0 ->
  let start := clock w (S (clock_reads w)) in
  0 <= start ->
  start + Z.of_nat (S n) * 2000 <= INT64_MAX ->
  let r := iterate (S n) daq_task_body l w in
  d_next_deadline_us (value r) = start + Z.of_nat (S n) * 2000 /\
  q_ctrl_to_comm (final r) = q_ctrl_to_comm w.
Proof.
  intros Hfresh. cbv zeta. intros Hstart Hmax. split.
  - cbn [iterate]. rewrite bind_value.
    assert (Hfirst : d_next_deadline_us (value (daq_task_body l w)) =
                     clock w (S (clock_reads w)) + DAQ_PERIOD_US).
    { rewrite daq_task_body_deadline, Hfresh. cbn [Z.eqb].
      apply add64_exact.
      unfold fits_int64, INT64_MIN, INT64_MAX, DAQ_PERIOD_US in *.
      cbn in *. lia. }
    rewrite daq_iterations_deadline; rewrite Hfirst;
      unfold DAQ_PERIOD_US in *; cbn in *; lia.
  - apply (iterate_keeps q_ctrl_to_comm daq_task_body
             daq_task_body_keeps_queue).
Qed.

End MoreDaq.

Transparent do_control_compute.

(** ** Concrete runs of the further properties *)

Lemma overrun_is_caught_up_witness :
  0 < 1000 /\
  emitted (delay_until_us_calls (H := sample_platform) 3 1000 1000
             (sample_world 10000 0)) = [].
Proof.
  assert (HP : 0 < 1000) by lia.
  split; [exact HP|].
  refine (proj1 (@overrun_is_caught_up_without_sleeping sample_platform
                   1000 3 HP 1000 (sample_world 10000 0) HP _)).
  intros i. cbn. unfold INT64_MAX. lia.
Defined.

Lemma on_period_ticks_witness :
  0 < 5 /\
  err_abs_sum_us
    (stats_updates (stats_init (mk_period_stats 0 0 0 0 0) 1000)
       (5 :: periodic_ticks 5 1000 3)) = 0%float.
Proof.
  assert (Ht : 0 < 5) by lia.
  split; [exact Ht|].
  rewrite (on_period_ticks_measure_zero_error (mk_period_stats 0 0 0 0 0)
             1000 5 3 (or_introl eq_refl) Ht).
  reflexivity.
Defined.

Lemma background_reports_witness :
  0 <= bg_n (sample_world 5 10) /\
  bg_n (sample_world 5 10) + Z.of_nat 40 <= UINT32_MAX /\
  Z.of_nat
    (count_events is_bg_alive
       (emitted (iterate 40 (background_task_body (H := sample_platform)) tt
                   (sample_world 5 10)))) = 2.
Proof.
  assert (H0 : 0 <= bg_n (sample_world 5 10)) by (cbn; lia).
  assert (H1 : bg_n (sample_world 5 10) + Z.of_nat 40 <= UINT32_MAX)
    by (vm_compute; discriminate).
  split; [exact H0|]. split; [exact H1|].
  destruct (@background_reports_every_twentieth sample_platform 40
              (sample_world 5 10) H0 H1) as (_ & Halive & _).
  rewrite Halive. reflexivity.
Defined.

Lemma sequence_numbers_witness :
  0 <= c_sequence_number sample_ctrl_locals <= UINT32_MAX /\
  attempted_seqs
    (emitted (iterate 3 (control_task_body (H := sample_platform))
                sample_ctrl_locals (sample_world 5 10))) = [0; 1; 2].
Proof.
  assert (Hc : 0 <= c_sequence_number sample_ctrl_locals <= UINT32_MAX)
    by (vm_compute; split; discriminate).
  split; [exact Hc|].
  destruct (@sequence_numbers_count_attempts sample_platform 3
              sample_ctrl_locals (sample_world 5 10) Hc) as (Hseqs & _).
  rewrite Hseqs. reflexivity.
Defined.

Lemma control_stats_line_witness :
  target_period_us (c_stats sample_ctrl_locals) = CTRL_PERIOD_US /\
  flat_map stats_line_of
    (emitted (control_task_body (H := sample_platform) sample_ctrl_locals
                (sample_world 5 10))) = [].
Proof.
  assert (Ht : target_period_us (c_stats sample_ctrl_locals) = CTRL_PERIOD_US)
    by reflexivity.
  split; [exact Ht|].
  apply (proj2 (@control_stats_line_is_nominal sample_platform
                  sample_ctrl_locals (sample_world 5 10) Ht)).
  vm_compute. reflexivity.
Defined.

Lemma interval_across_report_witness :
  REPORT_MS * 1000 <=
  sub64 (clock (sample_world 5 2000000) 1)
    (c_last_report_time sample_ctrl_locals) /\
  sub64 (clock (sample_world 2000010 10) 1)
    (clock (sample_world 5 2000000) 1) < REPORT_MS * 1000 /\
  count
    (c_stats
       (value
          (control_task_body (H := sample_platform)
             (value (control_task_body (H := sample_platform)
                       sample_ctrl_locals (sample_world 5 2000000)))
             (sample_world 2000010 10)))) = 0.
Proof.
  assert (H1 : REPORT_MS * 1000 <=
               sub64 (clock (sample_world 5 2000000) 1)
                 (c_last_report_time sample_ctrl_locals))
    by (vm_compute; discriminate).
  assert (H2 : sub64 (clock (sample_world 2000010 10) 1)
                 (clock (sample_world 5 2000000) 1) < REPORT_MS * 1000)
    by (vm_compute; reflexivity).
  split; [exact H1|]. split; [exact H2|].
  destruct (@interval_across_report_is_not_measured sample_platform
              sample_ctrl_locals (sample_world 5 2000000)
              (sample_world 2000010 10) H1 H2) as (Hstats & _).
  rewrite Hstats. reflexivity.
Defined.

Lemma acquisition_schedule_witness :
  d_next_deadline_us
    {| d_stats := stats_init (mk_period_stats 0 0 0 0 0) DAQ_PERIOD_US;
       d_next_deadline_us := 0; d_last_report := 0 |} = 0 /\
  0 <= clock (sample_world 5 10) 1 /\
  clock (sample_world 5 10) 1 + Z.of_nat 3 * 2000 <= INT64_MAX /\
  d_next_deadline_us
    (value
       (iterate 3 (daq_task_body (H := sample_platform))
          {| d_stats := stats_init (mk_period_stats 0 0 0 0 0) DAQ_PERIOD_US;
             d_next_deadline_us := 0; d_last_report := 0 |}
          (sample_world 5 10))) = 6015.
Proof.
  assert (H0 : d_next_deadline_us
                 {| d_stats :=
                      stats_init (mk_period_stats 0 0 0 0 0) DAQ_PERIOD_US;
                    d_next_deadline_us := 0; d_last_report := 0 |} = 0)
    by reflexivity.
  assert (H1 : 0 <= clock (sample_world 5 10) 1)
    by (vm_compute; discriminate).
  assert (H2 : clock (sample_world 5 10) 1 + Z.of_nat 3 * 2000 <= INT64_MAX)
    by (vm_compute; discriminate).
  split; [exact H0|]. split; [exact H1|]. split; [exact H2|].
  destruct (@acquisition_schedule_is_fixed_rate sample_platform 2 _
              (sample_world 5 10) H0 H1 H2) as (Hd & _).
  rewrite Hd. reflexivity.
Defined.
